(** * detect-image-attributes: the text-extractor Lambda

    A shallow embedding of [lambda/text-extractor/index.js] (the handler
    that takes one SQS message, checks the S3 object tags, calls
    Rekognition text detection, writes the DynamoDB item, updates the tag
    and deletes the message) together with the properties of the
    processing pipeline.

    Modelling conventions.
    - JavaScript strings are Rocq [string]s. [Js.toLowerCase] maps the
      letters A-Z and leaves every other character alone: it is
      [String.prototype.toLowerCase] on strings of ASCII characters only.
      What is proved about case folding on arbitrary strings is proved
      for an arbitrary lower-casing function, of which the built-in is
      one.
    - The value produced by [JSON.parse] is a [JsValue]; a number carries
      its decimal rendering, which is all the handler ever uses of it.
    - The AWS clients and [JSON.parse] live outside the repository: they
      are the fields of a [Runtime], each call answering with a response
      or with a thrown error.
    - A run of the handler yields the sequence of its effects (commands
      sent, console lines) and either its return value or the error it
      throws. *)

From Stdlib Require Import String Ascii List Bool Arith ZArith QArith Lia.
Import ListNotations.
Local Open Scope list_scope.
Local Open Scope string_scope.

Set Implicit Arguments.

(* ------------------------------------------------------------------ *)
(** ** JavaScript strings *)

Module Js.

(** [c.toLowerCase()] on one character. *)
Definition lower_ascii (c : ascii) : ascii :=
let n := nat_of_ascii c in
if (65 <=? n)%nat && (n <=? 90)%nat then ascii_of_nat (n + 32) else c.

(** [String.prototype.toLowerCase] on strings of ASCII characters. *)
Fixpoint toLowerCase (s : string) : string :=
match s with
| EmptyString => EmptyString
| String c s' => String (lower_ascii c) (toLowerCase s')
end.

(** [s.startsWith(t)]: used by [includes] below. *)
Fixpoint startsWith (s t : string) {struct t} : bool :=
match t, s with
| EmptyString, _ => true
| String _ _, EmptyString => false
| String b t', String a s' => Ascii.eqb a b && startsWith s' t'
end.

(** [String.prototype.includes]: [t] occurs in [s] at some position. *)
Fixpoint includes (s t : string) : bool :=
startsWith s t ||
match s with
| EmptyString => false
| String _ s' => includes s' t
end.

(** [Array.prototype.join] on an array of strings. *)
Fixpoint join (sep : string) (l : list string) : string :=
match l with
| [] => ""
| [x] => x
| x :: rest => x ++ sep ++ join sep rest
end.

(** [s.split(c)] for a one-character separator: the pieces between the
  occurrences of [c]; never the empty array. *)
Fixpoint split (c : ascii) (s : string) : list string :=
match s with
| EmptyString => [EmptyString]
| String a s' =>
    if Ascii.eqb a c then EmptyString :: split c s'
    else match split c s' with
         | [] => [String a EmptyString]
         | p :: ps => String a p :: ps
         end
end.

End Js.

(* ------------------------------------------------------------------ *)
(** ** JavaScript values, as far as [JSON.parse] produces them *)

#[local] Unset Elimination Schemes.
Inductive JsValue : Type :=
| JUndefined
| JNull
| JBool (b : bool)
| JNumber (repr : string)
| JString (s : string)
| JArray (elems : list JsValue)
| JObject (fields : list (string * JsValue)).
#[local] Set Elimination Schemes.

(** The conversion a template literal applies to an interpolated value. *)
Fixpoint ToString (v : JsValue) : string :=
  match v with
  | JUndefined => "undefined"
  | JNull => "null"
  | JBool true => "true"
  | JBool false => "false"
  | JNumber repr => repr
  | JString s => s
  | JArray elems =>
      Js.join ","
        ((fix each (l : list JsValue) : list string :=
            match l with
            | [] => []
            | JUndefined :: l' => "" :: each l'
            | JNull :: l' => "" :: each l'
            | x :: l' => ToString x :: each l'
            end) elems)
  | JObject _ => "[object Object]"
  end.

(** Own-property lookup [o[name]] on a parsed object, which holds each
    property name once. *)
Fixpoint getField (name : string) (fields : list (string * JsValue)) : JsValue :=
  match fields with
  | [] => JUndefined
  | (k, v) :: rest => if String.eqb k name then v else getField name rest
  end.

(** An element of an array of strings inside a template literal:
    [`${arr[i]}`], the text "undefined" past the end. *)
Definition elemToString (l : list string) (i : nat) : string :=
  match nth_error l i with
  | Some s => s
  | None => "undefined"
  end.

(* ------------------------------------------------------------------ *)
(** ** Data exchanged with the queue and with the AWS clients *)

Module SQS.
(** One record of the SQS event handed to the Lambda. *)
Record Message : Type := {
  body : string;
  eventSourceARN : string;
  awsRegion : string;
  receiptHandle : string
}.
Record Event : Type := { Records : list Message }.
End SQS.

(** An S3 object tag. *)
Record Tag : Type := { Key : string; Value : string }.

(** One element of Rekognition's [TextDetections]; [Type_] is the
    [Type] property ("LINE" or "WORD"). *)
Record TextDetection : Type := {
  Type_ : string;
  DetectedText : string;
  Confidence : Q
}.

(** The DynamoDB item written by the handler. *)
Record Item : Type := {
  s3Uri : string;
  text_detected_flattened : string;
  contains_word : bool
}.

Inductive Command : Type :=
| GetObjectTaggingCommand (Bucket Key : JsValue)
| DetectTextCommand (Bucket Name : JsValue) (MinConfidence : Q)
| PutItemCommand (TableName : string) (item : Item)
| PutObjectTaggingCommand (Bucket Key : JsValue) (TagSet : list Tag)
| DeleteMessageCommand (QueueUrl ReceiptHandle : string).

(** What [client.send] resolves to: an object of which the handler reads
    the properties [TagSet] and [TextDetections], either of which may be
    missing. *)
Record Output : Type := {
  TagSet : option (list Tag);
  TextDetections : option (list TextDetection)
}.

Inductive Error : Type :=
| SyntaxError                      (* thrown by JSON.parse *)
| TypeError                        (* property access on undefined or null *)
| ServiceError (name : string).    (* thrown by an AWS client *)

(** [process.env]: the two variables the stack sets on the function. *)
Record ProcessEnv : Type := {
  WORD_TO_DETECT : string;
  DYNAMODB_TABLE : string
}.

(** Everything the handler calls and does not define. *)
Record Runtime : Type := {
  JSON_parse : string -> option JsValue;
  send : Command -> Error + Output;
  env : ProcessEnv
}.

Inductive ResponseBody : Type :=
| BodyMessage (message : string)
| BodyResults (message : string) (rekognitionResults : Output).

(** The handler's return value; [body] is the object that the source
    passes to [JSON.stringify]. *)
Record Response : Type := { statusCode : Z; body : ResponseBody }.

Inductive Effect : Type :=
| Send (c : Command)
| ConsoleLog (line : string)
| ConsoleLogJson (label : string) (value : Output)
| ConsoleError (line : string).

(* ------------------------------------------------------------------ *)
(** ** The monad of a handler run: effects so far, then a value or a
       thrown error *)

Definition M (A : Type) : Type := (list Effect * (Error + A))%type.

Definition ret {A} (a : A) : M A := ([], inr a).
Definition throw {A} (e : Error) : M A := ([], inl e).
Definition emit (ev : Effect) : M unit := ([ev], inr tt).

Definition bind {A B} (m : M A) (k : A -> M B) : M B :=
  match m with
  | (t, inl e) => (t, inl e)
  | (t, inr a) => let (t', r) := k a in ((t ++ t')%list, r)
  end.

(** [try { m } catch (error) { h error }]. *)
Definition try_catch {A} (m : M A) (h : Error -> M A) : M A :=
  match m with
  | (t, inl e) => let (t', r) := h e in ((t ++ t')%list, r)
  | (t, inr a) => (t, inr a)
  end.

(** A run preceded by effects that already happened. *)
Definition prepend {A} (t : list Effect) (m : M A) : M A :=
  ((t ++ fst m)%list, snd m).

Declare Scope run_scope.
Delimit Scope run_scope with run.
Notation "x <- m ;; k" := (bind m (fun x => k))
  (at level 61, m at next level, right associativity) : run_scope.
Notation "m ;;; k" := (bind m (fun _ => k))
  (at level 61, right associativity) : run_scope.

Definition trace {A} (m : M A) : list Effect := fst m.
Definition result {A} (m : M A) : Error + A := snd m.

(** [await client.send(command)]: the call is an effect whether it
    resolves or throws. *)
Definition await_send (R : Runtime) (c : Command) : M Output :=
  ([Send c], send R c).

Definition console_log (line : string) : M unit := emit (ConsoleLog line).

(* ------------------------------------------------------------------ *)
(** ** The handler of lambda/text-extractor/index.js *)

Definition processedByRekognitionTextDetectionTag : string :=
  "rekognition_text_detection".

(** [const { bucket, key } = s3Object]: throws on [null], reads two own
    properties of an object, finds nothing on any other value. *)
Definition destructure (s3Object : JsValue) : M (JsValue * JsValue) :=
  match s3Object with
  | JNull | JUndefined => throw TypeError
  | JObject fields => ret (getField "bucket" fields, getField "key" fields)
  | _ => ret (JUndefined, JUndefined)
  end.

(** [taggingResponse.TagSet || []]. *)
Definition existingTagsOf (taggingResponse : Output) : list Tag :=
  match TagSet taggingResponse with
  | Some tags => tags
  | None => []
  end.

Definition hasRekognitionTextDetectionTag (existingTags : list Tag) : bool :=
  existsb (fun tag => (Key tag =? processedByRekognitionTextDetectionTag)
                      && (Value tag =? "true")) existingTags.

Definition hasFalseTag (existingTags : list Tag) : bool :=
  existsb (fun tag => (Key tag =? processedByRekognitionTextDetectionTag)
                      && (Value tag =? "false")) existingTags.

(** The tag set sent when the tag exists with value 'false'. *)
Definition updatedTagSet (existingTags : list Tag) : list Tag :=
  map (fun tag =>
         if Key tag =? processedByRekognitionTextDetectionTag
         then {| Key := Key tag; Value := "true" |}
         else tag) existingTags.

(** The tag set sent when the tag is added. *)
Definition extendedTagSet (existingTags : list Tag) : list Tag :=
  (existingTags ++
   [{| Key := processedByRekognitionTextDetectionTag; Value := "true" |}])%list.

Definition detectedText (detections : list TextDetection) : string :=
  Js.join " | "
    (map (fun text => DetectedText text)
       (filter (fun text => Type_ text =? "LINE") detections)).

Definition wordDetected (word : string) (detections : list TextDetection) : bool :=
  existsb (fun text =>
             Js.includes (Js.toLowerCase (DetectedText text))
                         (Js.toLowerCase word))
    (filter (fun text => Type_ text =? "WORD") detections).

Definition queueUrlOf (message : SQS.Message) : string :=
  let arnParts := Js.split ":" (SQS.eventSourceARN message) in
  let accountId := elemToString arnParts 4 in
  let queueName := elemToString arnParts 5 in
  let region := SQS.awsRegion message in
  "https://sqs." ++ region ++ ".amazonaws.com/" ++ accountId ++ "/" ++ queueName.

Definition MinConfidence : Q := 90.

(** [const s3Uri = `s3://${bucket}/${key}`]. *)
Definition s3UriOf (bucket key : JsValue) : string :=
  "s3://" ++ ToString bucket ++ "/" ++ ToString key.

Local Open Scope run_scope.

(** The tag update, lines 112-160: rewrite a 'false' tag, else add the
    tag when there is room, else only log. *)
Definition markerUpdate (R : Runtime) (bucket key : JsValue) (s3Uri : string)
    (existingTags : list Tag) : M unit :=
  if hasFalseTag existingTags then
    await_send R (PutObjectTaggingCommand bucket key (updatedTagSet existingTags)) ;;;
    console_log ("Object " ++ s3Uri ++
      " already has a tag with key 'rekognition_text_detection' but with value 'false', update the tag value to 'true'")
  else if (length existingTags <? 10)%nat then
    await_send R (PutObjectTaggingCommand bucket key (extendedTagSet existingTags)) ;;;
    console_log ("Added 'rekognition_text_detection' object tag to " ++ s3Uri)
  else
    console_log ("Object " ++ s3Uri ++
      " already had a maximum of 10 tags, skipping the addition of the new tag").

(** The [try] block, lines 24-185. *)
Definition handler_try (R : Runtime) (message : SQS.Message) : M Response :=
  let s3JSONString := SQS.body message in
  s3Object <- match JSON_parse R s3JSONString with
              | Some v => ret v
              | None => throw SyntaxError
              end ;;
  bk <- destructure s3Object ;;
  let bucket := fst bk in
  let key := snd bk in
  let s3Uri := s3UriOf bucket key in
  console_log ("Processing S3 Object " ++ s3Uri) ;;;
  taggingResponse <- await_send R (GetObjectTaggingCommand bucket key) ;;
  let existingTags := existingTagsOf taggingResponse in
  if hasRekognitionTextDetectionTag existingTags then
    console_log ("Object " ++ s3Uri ++ " already processed, skipping") ;;;
    ret {| statusCode := 200; body := BodyMessage "Object already processed" |}
  else
    rekognitionResponse <- await_send R (DetectTextCommand bucket key MinConfidence) ;;
    emit (ConsoleLogJson "Rekognition response:" rekognitionResponse) ;;;
    detections <- match TextDetections rekognitionResponse with
                  | Some l => ret l
                  | None => throw TypeError
                  end ;;
    let detectedText := detectedText detections in
    let wordDetected := wordDetected (WORD_TO_DETECT (env R)) detections in
    let dynamodbTableName := DYNAMODB_TABLE (env R) in
    await_send R (PutItemCommand dynamodbTableName
                    {| s3Uri := s3Uri;
                       text_detected_flattened := detectedText;
                       contains_word := if wordDetected then true else false |}) ;;;
    markerUpdate R bucket key s3Uri existingTags ;;;
    let queueUrl := queueUrlOf message in
    await_send R (DeleteMessageCommand queueUrl (SQS.receiptHandle message)) ;;;
    ret {| statusCode := 200;
           body := BodyResults "Processing completed successfully" rekognitionResponse |}.

(** [exports.handler]: [event.Records[0]] and its [body] are read before
    the [try]; the [catch] logs one line and rethrows the same error. *)
Definition handler (R : Runtime) (event : SQS.Event) : M Response :=
  match SQS.Records event with
  | [] => throw TypeError
  | message :: _ =>
      try_catch (handler_try R message)
        (fun error => emit (ConsoleError "Error processing image:") ;;; throw error)
  end.

Local Close Scope run_scope.

(* ------------------------------------------------------------------ *)
(** ** What a run did: observations on its effects *)

Fixpoint commands (t : list Effect) : list Command :=
  match t with
  | [] => []
  | Send c :: t' => c :: commands t'
  | _ :: t' => commands t'
  end.

Definition is_GetObjectTagging (c : Command) : bool :=
  match c with GetObjectTaggingCommand _ _ => true | _ => false end.
Definition is_DetectText (c : Command) : bool :=
  match c with DetectTextCommand _ _ _ => true | _ => false end.
Definition is_PutItem (c : Command) : bool :=
  match c with PutItemCommand _ _ => true | _ => false end.
Definition is_PutObjectTagging (c : Command) : bool :=
  match c with PutObjectTaggingCommand _ _ _ => true | _ => false end.
Definition is_DeleteMessage (c : Command) : bool :=
  match c with DeleteMessageCommand _ _ => true | _ => false end.

(** The run invoked the detector / wrote to the table / wrote tags /
    issued the delete of the queue message. *)
Definition detectorInvoked {A} (m : M A) : bool :=
  existsb is_DetectText (commands (trace m)).
Definition storeWritten {A} (m : M A) : bool :=
  existsb is_PutItem (commands (trace m)).
Definition markerWritten {A} (m : M A) : bool :=
  existsb is_PutObjectTagging (commands (trace m)).
Definition deleteIssued {A} (m : M A) : bool :=
  existsb is_DeleteMessage (commands (trace m)).

(** The run reached Acknowledged: it issued the delete of the queue
    message and returned normally, so the delete resolved. *)
Definition acknowledged {A} (m : M A) : bool :=
  deleteIssued m && match result m with inr _ => true | inl _ => false end.

(** The items written to the table, and the tag sets written to the
    object, in the order of the writes. *)
Fixpoint storedItems (cs : list Command) : list Item :=
  match cs with
  | [] => []
  | PutItemCommand _ item :: cs' => item :: storedItems cs'
  | _ :: cs' => storedItems cs'
  end.

Fixpoint writtenTagSets (cs : list Command) : list (list Tag) :=
  match cs with
  | [] => []
  | PutObjectTaggingCommand _ _ tags :: cs' => tags :: writtenTagSets cs'
  | _ :: cs' => writtenTagSets cs'
  end.

(** How many entries of a tag set carry the idempotency tag's name. *)
Definition markerEntries (tags : list Tag) : nat :=
  length (filter (fun tag => Key tag =? processedByRekognitionTextDetectionTag) tags).

(** The two granularities of a detected fragment. *)
Definition isLine (text : TextDetection) : bool := Type_ text =? "LINE".
Definition isWord (text : TextDetection) : bool := Type_ text =? "WORD".

(** The SQS event carrying the one message. *)
Definition eventOf (message : SQS.Message) : SQS.Event :=
  {| SQS.Records := [message] |}.

(* ------------------------------------------------------------------ *)
(** ** The paths of a run

    The stages a run has passed, as facts about the answers of the
    runtime, and the runs the handler can make, one constructor per exit
    of the source. [handler_run] below proves that every run of
    [handler] is one of them. *)

(** The body parsed and the destructuring gave [bucket] and [key]. *)
Definition Identified (R : Runtime) (message : SQS.Message)
    (bucket key : JsValue) : Prop :=
  exists s3Object,
    JSON_parse R (SQS.body message) = Some s3Object /\
    destructure s3Object = ret (bucket, key).

(** The tags of the object were fetched. *)
Definition Fetched (R : Runtime) (message : SQS.Message)
    (bucket key : JsValue) (existingTags : list Tag) : Prop :=
  Identified R message bucket key /\
  exists taggingResponse,
    send R (GetObjectTaggingCommand bucket key) = inr taggingResponse /\
    existingTagsOf taggingResponse = existingTags.

(** The object was not skipped and the detector answered. *)
Definition Detected (R : Runtime) (message : SQS.Message)
    (bucket key : JsValue) (existingTags : list Tag)
    (rekognitionResponse : Output) (detections : list TextDetection) : Prop :=
  Fetched R message bucket key existingTags /\
  hasRekognitionTextDetectionTag existingTags = false /\
  send R (DetectTextCommand bucket key MinConfidence) = inr rekognitionResponse /\
  TextDetections rekognitionResponse = Some detections.

(** The item the handler writes for an object and its detections. *)
Definition itemOf (R : Runtime) (bucket key : JsValue)
    (detections : list TextDetection) : Item :=
  {| s3Uri := s3UriOf bucket key;
     text_detected_flattened := detectedText detections;
     contains_word :=
       if wordDetected (WORD_TO_DETECT (env R)) detections then true else false |}.

Definition putItemOf (R : Runtime) (bucket key : JsValue)
    (detections : list TextDetection) : Command :=
  PutItemCommand (DYNAMODB_TABLE (env R)) (itemOf R bucket key detections).

Definition deleteOf (message : SQS.Message) : Command :=
  DeleteMessageCommand (queueUrlOf message) (SQS.receiptHandle message).

(** The item was written. *)
Definition Stored (R : Runtime) (message : SQS.Message)
    (bucket key : JsValue) (existingTags : list Tag)
    (rekognitionResponse : Output) (detections : list TextDetection) : Prop :=
  Detected R message bucket key existingTags rekognitionResponse detections /\
  exists o, send R (putItemOf R bucket key detections) = inr o.

Definition errorLine : Effect := ConsoleError "Error processing image:".

Definition processingLine (bucket key : JsValue) : Effect :=
  ConsoleLog ("Processing S3 Object " ++ s3UriOf bucket key).

Definition skippingLine (bucket key : JsValue) : Effect :=
  ConsoleLog ("Object " ++ s3UriOf bucket key ++ " already processed, skipping").

Definition rewrittenLine (bucket key : JsValue) : Effect :=
  ConsoleLog ("Object " ++ s3UriOf bucket key ++
    " already has a tag with key 'rekognition_text_detection' but with value 'false', update the tag value to 'true'").

Definition addedLine (bucket key : JsValue) : Effect :=
  ConsoleLog ("Added 'rekognition_text_detection' object tag to " ++ s3UriOf bucket key).

(** The warning of the tag cap. *)
Definition cappedLine (bucket key : JsValue) : Effect :=
  ConsoleLog ("Object " ++ s3UriOf bucket key ++
    " already had a maximum of 10 tags, skipping the addition of the new tag").

Definition skippedResponse : Response :=
  {| statusCode := 200; body := BodyMessage "Object already processed" |}.

Definition completedResponse (rekognitionResponse : Output) : Response :=
  {| statusCode := 200;
     body := BodyResults "Processing completed successfully" rekognitionResponse |}.

(** The runs of the tag update. *)
Inductive MarkerRun (R : Runtime) (bucket key : JsValue)
    (existingTags : list Tag) : M unit -> Prop :=
| MarkerRewritten o :
    hasFalseTag existingTags = true ->
    send R (PutObjectTaggingCommand bucket key (updatedTagSet existingTags)) = inr o ->
    MarkerRun R bucket key existingTags
      ([Send (PutObjectTaggingCommand bucket key (updatedTagSet existingTags));
        rewrittenLine bucket key], inr tt)
| MarkerRewriteFault e :
    hasFalseTag existingTags = true ->
    send R (PutObjectTaggingCommand bucket key (updatedTagSet existingTags)) = inl e ->
    MarkerRun R bucket key existingTags
      ([Send (PutObjectTaggingCommand bucket key (updatedTagSet existingTags))], inl e)
| MarkerAdded o :
    hasFalseTag existingTags = false ->
    (length existingTags < 10)%nat ->
    send R (PutObjectTaggingCommand bucket key (extendedTagSet existingTags)) = inr o ->
    MarkerRun R bucket key existingTags
      ([Send (PutObjectTaggingCommand bucket key (extendedTagSet existingTags));
        addedLine bucket key], inr tt)
| MarkerAddFault e :
    hasFalseTag existingTags = false ->
    (length existingTags < 10)%nat ->
    send R (PutObjectTaggingCommand bucket key (extendedTagSet existingTags)) = inl e ->
    MarkerRun R bucket key existingTags
      ([Send (PutObjectTaggingCommand bucket key (extendedTagSet existingTags))], inl e)
| MarkerCapped :
    hasFalseTag existingTags = false ->
    (10 <= length existingTags)%nat ->
    MarkerRun R bucket key existingTags ([cappedLine bucket key], inr tt).

(** The effects of a run up to and including the write of the item. *)
Definition storedPrefix (R : Runtime) (bucket key : JsValue)
    (rekognitionResponse : Output) (detections : list TextDetection) : list Effect :=
  [processingLine bucket key;
   Send (GetObjectTaggingCommand bucket key);
   Send (DetectTextCommand bucket key MinConfidence);
   ConsoleLogJson "Rekognition response:" rekognitionResponse;
   Send (putItemOf R bucket key detections)].

(** The runs of the handler on one message. *)
Inductive Run (R : Runtime) (message : SQS.Message) : M Response -> Prop :=
| RunParseError :
    JSON_parse R (SQS.body message) = None ->
    Run R message ([errorLine], inl SyntaxError)
| RunNoObject s3Object :
    JSON_parse R (SQS.body message) = Some s3Object ->
    destructure s3Object = throw TypeError ->
    Run R message ([errorLine], inl TypeError)
| RunTagsFault bucket key e :
    Identified R message bucket key ->
    send R (GetObjectTaggingCommand bucket key) = inl e ->
    Run R message
      ([processingLine bucket key; Send (GetObjectTaggingCommand bucket key);
        errorLine], inl e)
| RunSkipped bucket key existingTags :
    Fetched R message bucket key existingTags ->
    hasRekognitionTextDetectionTag existingTags = true ->
    Run R message
      ([processingLine bucket key; Send (GetObjectTaggingCommand bucket key);
        skippingLine bucket key], inr skippedResponse)
| RunDetectFault bucket key existingTags e :
    Fetched R message bucket key existingTags ->
    hasRekognitionTextDetectionTag existingTags = false ->
    send R (DetectTextCommand bucket key MinConfidence) = inl e ->
    Run R message
      ([processingLine bucket key; Send (GetObjectTaggingCommand bucket key);
        Send (DetectTextCommand bucket key MinConfidence); errorLine], inl e)
| RunNoDetections bucket key existingTags rekognitionResponse :
    Fetched R message bucket key existingTags ->
    hasRekognitionTextDetectionTag existingTags = false ->
    send R (DetectTextCommand bucket key MinConfidence) = inr rekognitionResponse ->
    TextDetections rekognitionResponse = None ->
    Run R message
      ([processingLine bucket key; Send (GetObjectTaggingCommand bucket key);
        Send (DetectTextCommand bucket key MinConfidence);
        ConsoleLogJson "Rekognition response:" rekognitionResponse;
        errorLine], inl TypeError)
| RunStoreFault bucket key existingTags rekognitionResponse detections e :
    Detected R message bucket key existingTags rekognitionResponse detections ->
    send R (putItemOf R bucket key detections) = inl e ->
    Run R message
      ((storedPrefix R bucket key rekognitionResponse detections ++ [errorLine])%list,
       inl e)
| RunMarkerFault bucket key existingTags rekognitionResponse detections t e :
    Stored R message bucket key existingTags rekognitionResponse detections ->
    MarkerRun R bucket key existingTags (t, inl e) ->
    Run R message
      ((storedPrefix R bucket key rekognitionResponse detections ++ t ++ [errorLine])%list,
       inl e)
| RunDeleteFault bucket key existingTags rekognitionResponse detections t e :
    Stored R message bucket key existingTags rekognitionResponse detections ->
    MarkerRun R bucket key existingTags (t, inr tt) ->
    send R (deleteOf message) = inl e ->
    Run R message
      ((storedPrefix R bucket key rekognitionResponse detections ++ t ++
        [Send (deleteOf message); errorLine])%list, inl e)
| RunCompleted bucket key existingTags rekognitionResponse detections t o :
    Stored R message bucket key existingTags rekognitionResponse detections ->
    MarkerRun R bucket key existingTags (t, inr tt) ->
    send R (deleteOf message) = inr o ->
    Run R message
      ((storedPrefix R bucket key rekognitionResponse detections ++ t ++
        [Send (deleteOf message)])%list,
       inr (completedResponse rekognitionResponse)).

(** An entry that is not the idempotency tag. *)
Definition unrelated (tag : Tag) : bool :=
  negb (Key tag =? processedByRekognitionTextDetectionTag).

(** The services answer every command of a kind normally. *)
Definition accepts (R : Runtime) (kind : Command -> bool) : Prop :=
  forall c, kind c = true -> exists o, send R c = inr o.

(** The run ended at the skip of an already processed object. *)
Definition shortCircuits (m : M Response) : Prop :=
  result m = inr skippedResponse.

(** The tag carrying the idempotency marker with a given value. *)
Definition markerTag (value : string) : Tag :=
  {| Key := processedByRekognitionTextDetectionTag; Value := value |}.

(** The body lacks the identity of an object: it does not parse, or
    what it parses to has no [bucket] or no [key]. *)
Definition lacksIdentity (R : Runtime) (message : SQS.Message) : Prop :=
  match JSON_parse R (SQS.body message) with
  | None => True
  | Some (JObject fields) =>
      getField "bucket" fields = JUndefined \/ getField "key" fields = JUndefined
  | Some _ => True
  end.

(* ------------------------------------------------------------------ *)
(** ** Concrete messages and runtimes *)

Module Scenario.

Definition quoted (s : string) : string :=
  String (ascii_of_nat 34) s ++ String (ascii_of_nat 34) "".

(** The body [{"bucket":"b","key":"posters/p1.jpg"}]. *)
Definition bodyP1 : string :=
  "{" ++ quoted "bucket" ++ ":" ++ quoted "b" ++ "," ++
  quoted "key" ++ ":" ++ quoted "posters/p1.jpg" ++ "}".

Definition objectP1 : JsValue :=
  JObject [("bucket", JString "b"); ("key", JString "posters/p1.jpg")].

(** [JSON.parse] on the bodies used below. *)
Definition parse (s : string) : option JsValue :=
  if s =? bodyP1 then Some objectP1
  else if s =? "{}" then Some (JObject [])
  else None.

Definition messageWith (body : string) : SQS.Message :=
  {| SQS.body := body;
     SQS.eventSourceARN :=
       "arn:aws:sqs:us-east-1:123456789012:detect-image-attributes";
     SQS.awsRegion := "us-east-1";
     SQS.receiptHandle := "receipt-1" |}.

Definition messageP1 : SQS.Message := messageWith bodyP1.
Definition messageEmptyObject : SQS.Message := messageWith "{}".
Definition messageMalformed : SQS.Message := messageWith "{bucket".

Definition noOutput : Output := {| TagSet := None; TextDetections := None |}.

Definition taggingOutput (tags : list Tag) : Output :=
  {| TagSet := Some tags; TextDetections := None |}.

Definition detectionOutput (detections : list TextDetection) : Output :=
  {| TagSet := None; TextDetections := Some detections |}.

Definition detectionsP1 : list TextDetection :=
  [ {| Type_ := "LINE"; DetectedText := "FINDME NOW"; Confidence := 95 |};
    {| Type_ := "WORD"; DetectedText := "findme"; Confidence := 95 |} ].

Definition processEnv : ProcessEnv :=
  {| WORD_TO_DETECT := "findme";
     DYNAMODB_TABLE := "s3-object-image-recognition-mapping" |}.

(** Services that answer every call: the object carries [tags] and the
    detector finds [detections]. *)
Definition runtime (tags : list Tag) (detections : list TextDetection) : Runtime :=
  {| JSON_parse := parse;
     send := fun c =>
       match c with
       | GetObjectTaggingCommand _ _ => inr (taggingOutput tags)
       | DetectTextCommand _ _ _ => inr (detectionOutput detections)
       | _ => inr noOutput
       end;
     env := processEnv |}.

(** The same, with a detector that does not find the object. *)
Definition runtimeNotFound (tags : list Tag) : Runtime :=
  {| JSON_parse := parse;
     send := fun c =>
       match c with
       | GetObjectTaggingCommand _ _ => inr (taggingOutput tags)
       | DetectTextCommand _ _ _ => inl (ServiceError "InvalidS3ObjectException")
       | _ => inr noOutput
       end;
     env := processEnv |}.

Definition tag (k v : string) : Tag := {| Key := k; Value := v |}.

Definition tenTags : list Tag :=
  [tag "t0" "a"; tag "t1" "b"; tag "t2" "c"; tag "t3" "d"; tag "t4" "e";
   tag "t5" "f"; tag "t6" "g"; tag "t7" "h"; tag "t8" "i"; tag "t9" "j"].

Definition tagsWithFalse : list Tag :=
  [tag "project" "posters"; markerTag "false"; tag "owner" "media"].

End Scenario.

(* ------------------------------------------------------------------ *)
(** ** Further observations on the text extractor *)

(** The character [c] occurs in [s]; how often it does. *)
Fixpoint hasChar (c : ascii) (s : string) : bool :=
  match s with
  | EmptyString => false
  | String a s' => Ascii.eqb a c || hasChar c s'
  end.

Fixpoint countChar (c : ascii) (s : string) : nat :=
  match s with
  | EmptyString => 0
  | String a s' => (if Ascii.eqb a c then 1 else 0) + countChar c s'
  end.

(** The command concerns the object [bucket]/[key], or is the delete of
    the message itself. *)
Definition targets (message : SQS.Message) (bucket key : JsValue)
    (c : Command) : Prop :=
  match c with
  | GetObjectTaggingCommand b k => b = bucket /\ k = key
  | DetectTextCommand b k _ => b = bucket /\ k = key
  | PutItemCommand _ item => s3Uri item = s3UriOf bucket key
  | PutObjectTaggingCommand b k _ => b = bucket /\ k = key
  | DeleteMessageCommand _ _ => c = deleteOf message
  end.

(** A fragment with its text in lower case. *)
Definition lowerFragment (text : TextDetection) : TextDetection :=
  {| Type_ := Type_ text;
     DetectedText := Js.toLowerCase (DetectedText text);
     Confidence := Confidence text |}.

(* ------------------------------------------------------------------ *)
(** ** The handler of lambda/s3-batch-sqs/index.js

    S3 Batch Operations invokes it with one task per object; it filters
    by file extension and sends the object to the queue. [JSON.stringify]
    and the SQS client are outside the repository and are fields of the
    runtime; a thrown error is known by its [message]. *)

Module Batch.

(** [s.lastIndexOf(c)] for a one-character [c]: the index of the last
    occurrence, -1 when there is none. *)
Fixpoint lastIndexOf (c : ascii) (s : string) : Z :=
  match s with
  | EmptyString => (-1)%Z
  | String a s' =>
      let r := lastIndexOf c s' in
      if (0 <=? r)%Z then (r + 1)%Z
      else if Ascii.eqb a c then 0%Z else (-1)%Z
  end.

Fixpoint dropChars (n : nat) (s : string) : string :=
  match n, s with
  | O, _ => s
  | S n', EmptyString => EmptyString
  | S n', String _ s' => dropChars n' s'
  end.

(** [s.substring(start)]: a negative [start] counts as 0, one past the
    end gives the empty string. *)
Definition substring (s : string) (start : Z) : string :=
  dropChars (Z.to_nat start) s.

(** [s.split(sep)] for a separator of at least one character: [skip]
    counts the characters of a separator occurrence still to pass. *)
Fixpoint splitFrom (sep : string) (skip : nat) (s : string) : list string :=
  match s with
  | EmptyString => [EmptyString]
  | String a s' =>
      match skip with
      | S n => splitFrom sep n s'
      | O =>
          if Js.startsWith s sep
          then EmptyString :: splitFrom sep (String.length sep - 1) s'
          else match splitFrom sep 0 s' with
               | [] => [String a EmptyString]
               | p :: ps => String a p :: ps
               end
      end
  end.

Definition split (sep : string) (s : string) : list string :=
  splitFrom sep 0 s.

Record Task : Type := {
  taskId : string;
  s3Key : string;
  s3VersionId : JsValue;
  s3BucketArn : string
}.

Record Event : Type := {
  invocationSchemaVersion : string;
  invocationId : string;
  tasks : list Task
}.

Record SendMessageCommand : Type := {
  QueueUrl : string;
  MessageBody : string
}.

Record ThrownError : Type := { message : string }.

Record Runtime : Type := {
  JSON_stringify : JsValue -> string;
  send : SendMessageCommand -> ThrownError + unit;
  SQS_QUEUE_URL : string
}.

Record TaskResult : Type := {
  resultTaskId : string;
  resultCode : string;
  resultString : string
}.

Record Response : Type := {
  responseSchemaVersion : string;
  treatMissingKeysAs : string;
  responseInvocationId : string;
  results : list TaskResult
}.

Inductive Effect : Type :=
| Send (c : SendMessageCommand)
| ConsoleLog (results : list TaskResult).

Definition SUPPORTED_EXTENSIONS : list string := [".jpg"; ".jpeg"; ".png"].

(** [SUPPORTED_EXTENSIONS.includes(fileExtension)]. *)
Definition supported (fileExtension : string) : bool :=
  existsb (fun e => e =? fileExtension) SUPPORTED_EXTENSIONS.

(** [s3Key.toLowerCase().substring(s3Key.lastIndexOf('.'))], for a key of
    ASCII characters. *)
Definition fileExtensionOf (s3Key : string) : string :=
  substring (Js.toLowerCase s3Key) (lastIndexOf "." s3Key).

(** [task.s3BucketArn.split(':::')[1]]. *)
Definition s3BucketOf (s3BucketArn : string) : JsValue :=
  match nth_error (split ":::" s3BucketArn) 1 with
  | Some s => JString s
  | None => JUndefined
  end.

(** The object passed to [JSON.stringify]. *)
Definition messageObject (task : Task) : JsValue :=
  JObject [("bucket", s3BucketOf (s3BucketArn task));
           ("key", JString (s3Key task));
           ("versionId", s3VersionId task)].

Definition commandOf (R : Runtime) (task : Task) : SendMessageCommand :=
  {| QueueUrl := SQS_QUEUE_URL R;
     MessageBody := JSON_stringify R (messageObject task) |}.

(** The [try] with its [catch], lines 20-60: the effects and the entry
    pushed to [results]. *)
Definition processTask (R : Runtime) (task : Task) : list Effect * TaskResult :=
  let fileExtension := fileExtensionOf (s3Key task) in
  if negb (supported fileExtension) then
    ([], {| resultTaskId := taskId task;
            resultCode := "Succeeded";
            resultString := "Skipped - Unsupported file type: " ++ fileExtension |})
  else
    match send R (commandOf R task) with
    | inr _ =>
        ([Send (commandOf R task)],
         {| resultTaskId := taskId task;
            resultCode := "Succeeded";
            resultString := "Successfully queued for processing" |})
    | inl error =>
        ([Send (commandOf R task)],
         {| resultTaskId := taskId task;
            resultCode := "TemporaryFailure";
            resultString := "Error processing task: " ++ message error |})
    end.

(** [exports.handler]. Without a task, [task.s3Key] throws inside the
    [try] and [task.taskId] throws again inside the [catch]. *)
Definition handler (R : Runtime) (event : Event)
    : list Effect * (Error + Response) :=
  match tasks event with
  | [] => ([], inl TypeError)
  | task :: _ =>
      let (effects, entry) := processTask R task in
      ((effects ++ [ConsoleLog [entry]])%list,
       inr {| responseSchemaVersion := invocationSchemaVersion event;
              treatMissingKeysAs := "TemporaryFailure";
              responseInvocationId := invocationId event;
              results := [entry] |})
  end.

(** The messages a run of the handler sent. *)
Fixpoint sent (t : list Effect) : list SendMessageCommand :=
  match t with
  | [] => []
  | Send c :: t' => c :: sent t'
  | ConsoleLog _ :: t' => sent t'
  end.

End Batch.

(* ------------------------------------------------------------------ *)
(** ** Further concrete cases *)

Module Cases.

Definition taskP1 : Batch.Task :=
  {| Batch.taskId := "task-1";
     Batch.s3Key := "posters/p1.jpg";
     Batch.s3VersionId := JNull;
     Batch.s3BucketArn := "arn:aws:s3:::b" |}.

Definition batchEvent (task : Batch.Task) : Batch.Event :=
  {| Batch.invocationSchemaVersion := "1.0";
     Batch.invocationId := "invocation-1";
     Batch.tasks := [task] |}.

(** The body [{"bucket":"b","key":"posters/p1.jpg","versionId":null}]. *)
Definition bodyP1Versioned : string :=
  "{" ++ Scenario.quoted "bucket" ++ ":" ++ Scenario.quoted "b" ++ "," ++
  Scenario.quoted "key" ++ ":" ++ Scenario.quoted "posters/p1.jpg" ++ "," ++
  Scenario.quoted "versionId" ++ ":null}".

(** [JSON.stringify] on the object sent for [taskP1]. *)
Definition stringify (v : JsValue) : string :=
  match v with
  | JObject [("bucket", JString "b"); ("key", JString "posters/p1.jpg");
             ("versionId", JNull)] => bodyP1Versioned
  | _ => "{}"
  end.

(** [JSON.parse] on that body. *)
Definition parse (s : string) : option JsValue :=
  if s =? bodyP1Versioned
  then Some (JObject [("bucket", JString "b"); ("key", JString "posters/p1.jpg");
                      ("versionId", JNull)])
  else None.

Definition extractorRuntime : Runtime :=
  {| JSON_parse := parse;
     send := send (Scenario.runtime [] Scenario.detectionsP1);
     env := Scenario.processEnv |}.

Definition messageFromBatch : SQS.Message :=
  Scenario.messageWith bodyP1Versioned.

Definition batchRuntime : Batch.Runtime :=
  {| Batch.JSON_stringify := stringify;
     Batch.send := fun _ => inr tt;
     Batch.SQS_QUEUE_URL :=
       "https://sqs.us-east-1.amazonaws.com/123456789012/detect-image-attributes" |}.

Definition batchRuntimeDown : Batch.Runtime :=
  {| Batch.JSON_stringify := stringify;
     Batch.send := fun _ => inl {| Batch.message := "connect ETIMEDOUT" |};
     Batch.SQS_QUEUE_URL :=
       "https://sqs.us-east-1.amazonaws.com/123456789012/detect-image-attributes" |}.

(** Services whose detector answers without [TextDetections]. *)
Definition runtimeNoDetections : Runtime :=
  {| JSON_parse := Scenario.parse;
     send := fun c =>
       match c with
       | GetObjectTaggingCommand _ _ => inr (Scenario.taggingOutput [])
       | _ => inr Scenario.noOutput
       end;
     env := Scenario.processEnv |}.

(** [JSON.parse] on bodies that are JSON but no object. *)
Definition parseScalar (s : string) : option JsValue :=
  if s =? "5" then Some (JNumber "5")
  else if s =? "[]" then Some (JArray [])
  else if s =? "true" then Some (JBool true)
  else None.

Definition runtimeScalar : Runtime :=
  {| JSON_parse := parseScalar;
     send := send (Scenario.runtime [] Scenario.detectionsP1);
     env := Scenario.processEnv |}.

(** Services whose S3 client throws while serialising a command that
    lacks [Bucket] or [Key], and answer every other call. *)
Definition hasIdentity (bucket key : JsValue) : bool :=
  match bucket, key with
  | JUndefined, _ => false
  | _, JUndefined => false
  | _, _ => true
  end.

Definition runtimeStrictClient : Runtime :=
  {| JSON_parse := Scenario.parse;
     send := fun c =>
       match c with
       | GetObjectTaggingCommand bucket key =>
           if hasIdentity bucket key
           then inr (Scenario.taggingOutput [])
           else inl (ServiceError "No value provided for input HTTP label")
       | DetectTextCommand _ _ _ =>
           inr (Scenario.detectionOutput Scenario.detectionsP1)
       | _ => inr Scenario.noOutput
       end;
     env := Scenario.processEnv |}.

End Cases.

(* ------------------------------------------------------------------ *)
(** ** The built-in lower-casing as a parameter *)

(** Every character of [s] is an ASCII character. *)
Fixpoint isAscii (s : string) : bool :=
  match s with
  | EmptyString => true
  | String a s' => (nat_of_ascii a <? 128)%nat && isAscii s'
  end.

(** A lower-casing function that is, on strings of ASCII characters,
    the mapping of A-Z to a-z, as [String.prototype.toLowerCase] is. *)
Definition agreesOnAscii (lower : string -> string) : Prop :=
  forall s, isAscii s = true -> lower s = Js.toLowerCase s.

(** Lines 87-92 with [toLowerCase] as [lower]; [wordDetected] is the
    instance at [Js.toLowerCase]. *)
Definition wordDetectedWith (lower : string -> string) (word : string)
    (detections : list TextDetection) : bool :=
  existsb (fun text =>
             Js.includes (lower (DetectedText text)) (lower word))
    (filter (fun text => Type_ text =? "WORD") detections).

(** Two fragments of the same type whose texts lower-case to the same. *)
Definition sameUpToCaseWith (lower : string -> string)
    (d d' : TextDetection) : Prop :=
  Type_ d = Type_ d' /\ lower (DetectedText d) = lower (DetectedText d').

(** Line 26 of the fan-out with [toLowerCase] as [lower]: the index is
    that of the last '.' of the key itself; [Batch.fileExtensionOf] is the
    instance at [Js.toLowerCase]. *)
Definition fileExtensionOfWith (lower : string -> string) (s3Key : string) : string :=
  Batch.substring (lower s3Key) (Batch.lastIndexOf "." s3Key).

(* ------------------------------------------------------------------ *)
(** ** What surrounds the extractor: the event source and the S3 client *)

(** The stack makes the function the target of an SqsEventSource with
    batch size one (stack, lines 112-119). That event source removes the
    message from the queue when the invocation returns normally and
    leaves it there, to be delivered again, when the invocation throws. *)
Definition removedByEventSource {A} (m : M A) : bool :=
  match result m with
  | inr _ => true
  | inl _ => false
  end.

(** The message of a run is acknowledged: by the handler's own delete,
    or by the event source after a normal return. *)
Definition reachesAcknowledged {A} (m : M A) : bool :=
  acknowledged m || removedByEventSource m.


(* ------------------------------------------------------------------ *)
(** ** Strings *)

Section StringFacts.

Lemma startsWith_spec (t s : string) :
  Js.startsWith s t = true <-> exists post, s = t ++ post.
Proof.
  revert s; induction t as [|b t IH]; intros s; simpl.
  - split; [intros _; exists s; reflexivity | reflexivity].
  - destruct s as [|a s].
    + split; [discriminate | intros [post H]; discriminate].
    + rewrite andb_true_iff, Ascii.eqb_eq, IH. split.
      * intros [-> [post ->]]. exists post. reflexivity.
      * intros [post H]. injection H as -> ->. split; [reflexivity | eauto].
Qed.

Lemma includes_spec (s t : string) :
  Js.includes s t = true <-> exists pre post, s = pre ++ t ++ post.
Proof.
  induction s as [|a s IH]; simpl.
  - rewrite orb_false_r, startsWith_spec. split.
    + intros [post H]. exists "", post. exact H.
    + intros [pre [post H]]. destruct pre; [exists post; exact H | discriminate].
  - rewrite orb_true_iff, startsWith_spec, IH. split.
    + intros [[post H] | [pre [post H]]].
      * exists "", post. exact H.
      * exists (String a pre), post. simpl. now rewrite H.
    + intros [pre [post H]]. destruct pre as [|a' pre]; simpl in H.
      * left. exists post. exact H.
      * right. injection H as _ H. exists pre, post. exact H.
Qed.

Lemma join_cons (sep x : string) (l : list string) :
  l <> [] -> Js.join sep (x :: l) = x ++ sep ++ Js.join sep l.
Proof. destruct l; [congruence | reflexivity]. Qed.

End StringFacts.

(* ------------------------------------------------------------------ *)
(** ** The aggregation: flattened text and word flag *)

Section Aggregation.

Lemma filter_isLine_none (l : list TextDetection) :
  forallb (fun d => negb (isLine d)) l = true -> filter isLine l = [].
Proof.
  induction l as [|d l IH]; [reflexivity|].
  simpl. rewrite andb_true_iff, negb_true_iff. intros [Hd Hl].
  rewrite Hd. auto.
Qed.

Lemma filter_isLine_some (l : list TextDetection) :
  existsb isLine l = true -> filter isLine l <> [].
Proof.
  induction l as [|d l IH]; [discriminate|].
  simpl. destruct (isLine d); [discriminate | exact IH].
Qed.

Lemma detectedText_skip (d : TextDetection) (l : list TextDetection) :
  isLine d = false -> detectedText (d :: l) = detectedText l.
Proof.
  unfold detectedText. fold isLine. intros H. simpl. now rewrite H.
Qed.

Lemma detectedText_no_line (l : list TextDetection) :
  forallb (fun d => negb (isLine d)) l = true -> detectedText l = "".
Proof.
  intros H. unfold detectedText. fold isLine.
  now rewrite (filter_isLine_none l H).
Qed.

Lemma detectedText_line_last (d : TextDetection) (l : list TextDetection) :
  isLine d = true ->
  forallb (fun d' => negb (isLine d')) l = true ->
  detectedText (d :: l) = DetectedText d.
Proof.
  intros Hd Hl. unfold detectedText. fold isLine. simpl. rewrite Hd.
  now rewrite (filter_isLine_none l Hl).
Qed.

Lemma detectedText_line_more (d : TextDetection) (l : list TextDetection) :
  isLine d = true ->
  existsb isLine l = true ->
  detectedText (d :: l) = DetectedText d ++ " | " ++ detectedText l.
Proof.
  intros Hd Hl. unfold detectedText. fold isLine. simpl filter. rewrite Hd.
  simpl map. apply join_cons.
  intros E. apply map_eq_nil in E. now apply (filter_isLine_some l Hl).
Qed.

Lemma detectedText_drop (l1 l2 : list TextDetection) (d : TextDetection) :
  isLine d = false ->
  detectedText (l1 ++ d :: l2) = detectedText (l1 ++ l2).
Proof.
  intros Hd. unfold detectedText. fold isLine.
  rewrite !filter_app. simpl. now rewrite Hd.
Qed.

Lemma wordDetected_spec (word : string) (l : list TextDetection) :
  wordDetected word l = true <->
  exists text, In text l /\ Type_ text = "WORD" /\
    exists pre post,
      Js.toLowerCase (DetectedText text) = pre ++ Js.toLowerCase word ++ post.
Proof.
  unfold wordDetected. rewrite existsb_exists. split.
  - intros [text [Hin Hinc]]. apply filter_In in Hin as [Hin Hty].
    exists text. repeat split; trivial.
    + now apply String.eqb_eq.
    + now apply includes_spec.
  - intros [text [Hin [Hty Hsub]]]. exists text. split.
    + apply filter_In. split; [exact Hin | now apply String.eqb_eq].
    + now apply includes_spec.
Qed.

Lemma wordDetected_drop (word : string) (l1 l2 : list TextDetection)
      (d : TextDetection) :
  isWord d = false ->
  wordDetected word (l1 ++ d :: l2) = wordDetected word (l1 ++ l2).
Proof.
  intros Hd. unfold wordDetected. fold isWord.
  rewrite !filter_app. simpl. now rewrite Hd.
Qed.

End Aggregation.


(* ------------------------------------------------------------------ *)
(** ** Equations of the run monad *)

Section MonadLaws.

Context {A B C : Type}.

Lemma bind_ret (a : A) (k : A -> M B) : bind (ret a) k = k a.
Proof. unfold bind, ret. now destruct (k a). Qed.

Lemma bind_throw (e : Error) (k : A -> M B) : bind (throw e) k = throw e.
Proof. reflexivity. Qed.

Lemma bind_emit (ev : Effect) (k : unit -> M B) :
  bind (emit ev) k = prepend [ev] (k tt).
Proof. unfold bind, emit, prepend. now destruct (k tt). Qed.

Lemma bind_console_log (line : string) (k : unit -> M B) :
  bind (console_log line) k = prepend [ConsoleLog line] (k tt).
Proof. apply bind_emit. Qed.

Lemma bind_send_ok (R : Runtime) (c : Command) (o : Output) (k : Output -> M B) :
  send R c = inr o -> bind (await_send R c) k = prepend [Send c] (k o).
Proof. unfold bind, await_send, prepend. intros ->. now destruct (k o). Qed.

Lemma bind_send_err (R : Runtime) (c : Command) (e : Error) (k : Output -> M B) :
  send R c = inl e -> bind (await_send R c) k = prepend [Send c] (throw e).
Proof. unfold bind, await_send, prepend. now intros ->. Qed.

Lemma bind_assoc (m : M A) (f : A -> M B) (g : B -> M C) :
  bind (bind m f) g = bind m (fun x => bind (f x) g).
Proof.
  unfold bind. destruct m as [t [e|a]]; [reflexivity|].
  destruct (f a) as [t1 [e1|b]]; [reflexivity|].
  destruct (g b) as [t2 r2]. now rewrite app_assoc.
Qed.

Lemma bind_prepend (t : list Effect) (m : M A) (k : A -> M B) :
  bind (prepend t m) k = prepend t (bind m k).
Proof.
  unfold bind, prepend. destruct m as [t1 [e|a]]; simpl; [reflexivity|].
  destruct (k a) as [t2 r2]. simpl. now rewrite app_assoc.
Qed.

Lemma try_catch_prepend (t : list Effect) (m : M A) (h : Error -> M A) :
  try_catch (prepend t m) h = prepend t (try_catch m h).
Proof.
  unfold try_catch, prepend. destruct m as [t1 [e|a]]; simpl; [|reflexivity].
  destruct (h e) as [t2 r2]. simpl. now rewrite app_assoc.
Qed.

Lemma try_catch_ret (a : A) (h : Error -> M A) : try_catch (ret a) h = ret a.
Proof. reflexivity. Qed.

Lemma try_catch_throw (e : Error) (h : Error -> M A) :
  try_catch (throw e) h = h e.
Proof. unfold try_catch, throw. now destruct (h e). Qed.

Lemma prepend_prepend (t t' : list Effect) (m : M A) :
  prepend t (prepend t' m) = prepend (t ++ t') m.
Proof. unfold prepend. simpl. now rewrite app_assoc. Qed.

End MonadLaws.

Lemma destructure_cases (v : JsValue) :
  destructure v = throw TypeError \/
  exists bucket key, destructure v = ret (bucket, key).
Proof. destruct v; simpl; eauto. Qed.

Lemma prepend_ret {A} (t : list Effect) (a : A) : prepend t (ret a) = (t, inr a).
Proof. unfold prepend, ret. simpl. now rewrite app_nil_r. Qed.

Lemma prepend_throw {A} (t : list Effect) (e : Error) :
  prepend t (@throw A e) = (t, inl e).
Proof. unfold prepend, throw. simpl. now rewrite app_nil_r. Qed.

Lemma bind_run_err {A B} (t : list Effect) (e : Error) (k : A -> M B) :
  bind (t, inl e) k = prepend t (throw e).
Proof. unfold bind, prepend, throw. simpl. now rewrite app_nil_r. Qed.

Lemma bind_run_ok {A B} (t : list Effect) (a : A) (k : A -> M B) :
  bind (t, inr a) k = prepend t (k a).
Proof. unfold bind, prepend. now destruct (k a). Qed.

(** Normalising a run: the effects of each completed step are pushed in
    front of the rest; the step at the head is decided from a hypothesis
    when there is one, by case analysis otherwise. *)
Ltac run_known :=
  first
    [ rewrite bind_prepend
    | rewrite bind_ret
    | rewrite bind_throw
    | rewrite bind_emit
    | rewrite bind_console_log
    | rewrite try_catch_prepend
    | rewrite try_catch_ret
    | rewrite try_catch_throw
    | rewrite prepend_prepend
    | rewrite bind_run_err
    | rewrite bind_run_ok
    | erewrite bind_send_ok by eassumption
    | erewrite bind_send_err by eassumption
    | match goal with
      | H : ?x = _ |- context [try_catch (bind (match ?x with _ => _ end) _) _] =>
          rewrite H
      | H : ?x = _ |- context [try_catch (if ?x then _ else _) _] => rewrite H
      | H : ?x = _ |- context [try_catch (bind ?x _) _] => rewrite H
      end ];
  cbv beta zeta; cbn [fst snd app].

Ltac run_split :=
  match goal with
  | |- context [try_catch (bind (await_send ?R ?c) _) _] =>
      let E := fresh "Esend" in destruct (send R c) eqn:E
  | |- context [try_catch (bind (match JSON_parse ?R ?s with _ => _ end) _) _] =>
      let E := fresh "Eparse" in destruct (JSON_parse R s) eqn:E
  | |- context [try_catch (bind (match TextDetections ?o with _ => _ end) _) _] =>
      let E := fresh "Edet" in destruct (TextDetections o) eqn:E
  | |- context [try_catch (if ?b then _ else _) _] =>
      let E := fresh "Etrue" in destruct b eqn:E
  | |- context [try_catch (bind (destructure ?v) _) _] =>
      let E := fresh "Edes" in
      destruct (destructure_cases v) as [E | (?bucket & ?key & E)]
  | |- context [try_catch (bind (markerUpdate ?R ?b ?k ?u ?l) _) _] =>
      let E := fresh "Emark" in
      destruct (markerUpdate R b k u l) as [?t [?e | []]] eqn:E
  end.

Ltac run_start :=
  unfold handler, eventOf; cbn [SQS.Records];
  unfold handler_try; cbv zeta.

Ltac run_finish :=
  rewrite ?prepend_ret, ?prepend_throw, <- ?app_assoc; cbn [app].

Ltac run_normal := run_start; repeat run_known; run_finish.
Ltac run_all := run_start; repeat (first [run_known | run_split]); run_finish.

Section Runs.

Variable R : Runtime.

Lemma markerUpdate_run (bucket key : JsValue) (existingTags : list Tag) :
  MarkerRun R bucket key existingTags
    (markerUpdate R bucket key (s3UriOf bucket key) existingTags).
Proof.
  unfold markerUpdate.
  destruct (hasFalseTag existingTags) eqn:Efalse.
  - destruct (send R (PutObjectTaggingCommand bucket key (updatedTagSet existingTags)))
      as [e|o] eqn:Esend.
    + rewrite (bind_send_err _ _ _ Esend), prepend_throw.
      now apply MarkerRewriteFault.
    + rewrite (bind_send_ok _ _ _ Esend). now apply MarkerRewritten with o.
  - destruct (length existingTags <? 10)%nat eqn:Elen.
    + apply Nat.ltb_lt in Elen.
      destruct (send R (PutObjectTaggingCommand bucket key (extendedTagSet existingTags)))
        as [e|o] eqn:Esend.
      * rewrite (bind_send_err _ _ _ Esend), prepend_throw.
        now apply MarkerAddFault.
      * rewrite (bind_send_ok _ _ _ Esend). now apply MarkerAdded with o.
    + apply Nat.ltb_ge in Elen. now apply MarkerCapped.
Qed.

(** Every run of the handler on a message is one of the runs of [Run]. *)
Lemma handler_run (message : SQS.Message) :
  Run R message (handler R (eventOf message)).
Proof.
  run_all.
  all: try match goal with
           | E : markerUpdate _ ?b ?k _ ?l = _ |- _ =>
               let H := fresh "Hmark" in
               pose proof (markerUpdate_run b k l) as H; rewrite E in H
           end.
  all: solve [ econstructor; unfold Stored, Detected, Fetched, Identified;
               eauto 12 ].
Qed.

Lemma MarkerRun_fun (bucket key : JsValue) (existingTags : list Tag)
      (x : M unit) :
  MarkerRun R bucket key existingTags x ->
  markerUpdate R bucket key (s3UriOf bucket key) existingTags = x.
Proof.
  intros H. unfold markerUpdate.
  destruct H as [o Hf Hs | e Hf Hs | o Hf Hl Hs | e Hf Hl Hs | Hf Hl];
    rewrite Hf; try (apply Nat.ltb_lt in Hl; rewrite Hl);
    try (apply Nat.ltb_ge in Hl; rewrite Hl); try reflexivity.
  - now rewrite (bind_send_ok _ _ _ Hs).
  - now rewrite (bind_send_err _ _ _ Hs), prepend_throw.
  - now rewrite (bind_send_ok _ _ _ Hs).
  - now rewrite (bind_send_err _ _ _ Hs), prepend_throw.
Qed.

(** Conversely, each run of [Run] is the run of the handler. *)
Lemma Run_fun (message : SQS.Message) (x : M Response) :
  Run R message x -> handler R (eventOf message) = x.
Proof.
  intros H; destruct H;
    repeat match goal with
           | H : Stored _ _ _ _ _ _ _ |- _ => destruct H as [? [? ?]]
           | H : Detected _ _ _ _ _ _ _ |- _ => destruct H as (? & ? & ? & ?)
           | H : Fetched _ _ _ _ _ |- _ => destruct H as (? & ? & ? & ?)
           | H : Identified _ _ _ _ |- _ => destruct H as (? & ? & ?)
           | H : MarkerRun _ _ _ _ _ |- _ => apply MarkerRun_fun in H
           end;
    subst; unfold putItemOf, itemOf, deleteOf, storedPrefix in *;
    run_normal; reflexivity.
Qed.

Lemma Identified_fun (message : SQS.Message) (b k b' k' : JsValue) :
  Identified R message b k -> Identified R message b' k' -> b = b' /\ k = k'.
Proof.
  intros (v & Hp & Hd) (v' & Hp' & Hd'). rewrite Hp in Hp'.
  injection Hp' as <-. rewrite Hd in Hd'. now injection Hd' as <- <-.
Qed.

Lemma Fetched_fun (message : SQS.Message) (b k b' k' : JsValue)
      (tags tags' : list Tag) :
  Fetched R message b k tags -> Fetched R message b' k' tags' ->
  b = b' /\ k = k' /\ tags = tags'.
Proof.
  intros [Hi (o & Hs & Ht)] [Hi' (o' & Hs' & Ht')].
  destruct (Identified_fun Hi Hi') as [<- <-].
  rewrite Hs in Hs'. injection Hs' as <-. subst. auto.
Qed.

Lemma Detected_fun (message : SQS.Message) (b k b' k' : JsValue)
      (tags tags' : list Tag) (rr rr' : Output)
      (dets dets' : list TextDetection) :
  Detected R message b k tags rr dets ->
  Detected R message b' k' tags' rr' dets' ->
  b = b' /\ k = k' /\ tags = tags' /\ rr = rr' /\ dets = dets'.
Proof.
  intros (Hf & _ & Hs & Hd) (Hf' & _ & Hs' & Hd').
  destruct (Fetched_fun Hf Hf') as (<- & <- & <-).
  rewrite Hs in Hs'. injection Hs' as <-.
  rewrite Hd in Hd'. injection Hd' as <-. auto.
Qed.

End Runs.

(** The two tests on the tag set, as membership. *)
Lemma hasRekognitionTextDetectionTag_In (tags : list Tag) :
  hasRekognitionTextDetectionTag tags = true <-> In (markerTag "true") tags.
Proof.
  unfold hasRekognitionTextDetectionTag. rewrite existsb_exists. split.
  - intros [[k v] [Hin H]]. simpl in H.
    apply andb_true_iff in H as [Hk Hv].
    apply String.eqb_eq in Hk, Hv. now subst.
  - intros Hin. exists (markerTag "true"). split; [exact Hin | reflexivity].
Qed.

Lemma hasFalseTag_In (tags : list Tag) :
  hasFalseTag tags = true <-> In (markerTag "false") tags.
Proof.
  unfold hasFalseTag. rewrite existsb_exists. split.
  - intros [[k v] [Hin H]]. simpl in H.
    apply andb_true_iff in H as [Hk Hv].
    apply String.eqb_eq in Hk, Hv. now subst.
  - intros Hin. exists (markerTag "false"). split; [exact Hin | reflexivity].
Qed.

(** Case analysis on the run of the handler: one goal per exit, with the
    answers of the runtime that lead there as plain equations. *)
Ltac run_stages :=
  repeat match goal with
         | H : Stored _ _ _ _ _ _ _ |- _ => destruct H as [? [? ?]]
         | H : Detected _ _ _ _ _ _ _ |- _ => destruct H as (? & ? & ? & ?)
         | H : Fetched _ _ _ _ _ |- _ => destruct H as (? & ? & ? & ?)
         | H : Identified _ _ _ _ |- _ => destruct H as (? & ? & ?)
         end.

Ltac run_inversion R message :=
  let Hrun := fresh "Hrun" in
  let run := fresh "run" in
  pose proof (handler_run R message) as Hrun;
  remember (handler R (eventOf message)) as run;
  destruct Hrun;
  repeat match goal with
         | H : MarkerRun _ _ _ _ (_, _) |- _ => inversion H; subst; clear H
         end;
  run_stages; unfold ret, throw, putItemOf, deleteOf in *.

Ltac run_observe :=
  cbv [detectorInvoked storeWritten markerWritten deleteIssued acknowledged
       shortCircuits trace result storedPrefix putItemOf deleteOf
       processingLine skippingLine errorLine rewrittenLine addedLine cappedLine
       fst snd app commands existsb orb andb storedItems writtenTagSets
       is_DeleteMessage is_PutItem is_DetectText is_PutObjectTagging
       is_GetObjectTagging] in *.

(* ------------------------------------------------------------------ *)
(** ** The skip of an already processed object *)

Section Skip.

Variable R : Runtime.
Variable message : SQS.Message.

(** With the marker 'true' among the tags the run is: one log line, the
    fetch of the tags, the skip line, the success response. *)
Lemma skipped_run (bucket key : JsValue) (existingTags : list Tag) :
  Fetched R message bucket key existingTags ->
  In (markerTag "true") existingTags ->
  handler R (eventOf message) =
    ([processingLine bucket key; Send (GetObjectTaggingCommand bucket key);
      skippingLine bucket key], inr skippedResponse).
Proof.
  intros Hf Hin. apply Run_fun. apply RunSkipped with existingTags; trivial.
  now apply hasRekognitionTextDetectionTag_In.
Qed.

(** Without it the run goes on to the detector. *)
Lemma unskipped_run (bucket key : JsValue) (existingTags : list Tag) :
  Fetched R message bucket key existingTags ->
  ~ In (markerTag "true") existingTags ->
  exists t r,
    handler R (eventOf message) =
      (processingLine bucket key :: Send (GetObjectTaggingCommand bucket key)
         :: Send (DetectTextCommand bucket key MinConfidence) :: t, r) /\
    r <> inr skippedResponse /\
    forall rr dets,
      send R (DetectTextCommand bucket key MinConfidence) = inr rr ->
      TextDetections rr = Some dets ->
      exists t', t = (ConsoleLogJson "Rekognition response:" rr
                        :: Send (putItemOf R bucket key dets) :: t')%list.
Proof.
  intros Hf Hin.
  assert (Hno : hasRekognitionTextDetectionTag existingTags = false).
  { destruct (hasRekognitionTextDetectionTag existingTags) eqn:E; trivial.
    now apply hasRekognitionTextDetectionTag_In in E. }
  run_stages. subst existingTags.
  run_inversion R message; run_observe.
  all: try congruence.
  all: repeat match goal with
              | H1 : ?x = _, H2 : ?x = _ |- _ =>
                  rewrite H1 in H2; inversion H2; subst; clear H2
              end.
  all: try congruence.
  all: do 2 eexists; split; [reflexivity|]; split; [discriminate|].
  all: intros rr dets Hrr Hdets; try congruence.
  all: repeat match goal with
              | H1 : ?x = _, H2 : ?x = _ |- _ =>
                  rewrite H1 in H2; inversion H2; subst; clear H2
              end.
  all: eexists; reflexivity.
Qed.

End Skip.

(* ------------------------------------------------------------------ *)
(** ** Properties of the pipeline *)

(** C1. When the tags fetched for the object of a message contain the
    marker 'rekognition_text_detection' = "true", the run short-circuits:
    the only command sent is the fetch of the tags, so the detector is not
    invoked, nothing is written to the table and no tag is written; the
    handler returns its success response, and the run reaches
    Acknowledged: the handler issues no delete of its own on this path,
    and the event source removes the message after the normal return. *)
Theorem C1_marked_object_short_circuits_acknowledged
    (R : Runtime) (message : SQS.Message) (bucket key : JsValue)
    (existingTags : list Tag) :
  Fetched R message bucket key existingTags ->
  In (markerTag "true") existingTags ->
  commands (trace (handler R (eventOf message)))
    = [GetObjectTaggingCommand bucket key] /\
  detectorInvoked (handler R (eventOf message)) = false /\
  storeWritten (handler R (eventOf message)) = false /\
  markerWritten (handler R (eventOf message)) = false /\
  result (handler R (eventOf message)) = inr skippedResponse /\
  deleteIssued (handler R (eventOf message)) = false /\
  removedByEventSource (handler R (eventOf message)) = true /\
  reachesAcknowledged (handler R (eventOf message)) = true.
Proof.
  intros Hf Hin. rewrite (skipped_run Hf Hin). repeat split.
Qed.

(** C1 on the message for s3://b/posters/p1.jpg whose object carries the
    marker "true". *)
Lemma C1_witness_marked_poster :
  commands (trace (handler (Scenario.runtime [markerTag "true"] Scenario.detectionsP1)
                     (eventOf Scenario.messageP1)))
    = [GetObjectTaggingCommand (JString "b") (JString "posters/p1.jpg")] /\
  detectorInvoked (handler (Scenario.runtime [markerTag "true"] Scenario.detectionsP1)
                     (eventOf Scenario.messageP1)) = false /\
  storeWritten (handler (Scenario.runtime [markerTag "true"] Scenario.detectionsP1)
                  (eventOf Scenario.messageP1)) = false /\
  markerWritten (handler (Scenario.runtime [markerTag "true"] Scenario.detectionsP1)
                   (eventOf Scenario.messageP1)) = false /\
  result (handler (Scenario.runtime [markerTag "true"] Scenario.detectionsP1)
            (eventOf Scenario.messageP1)) = inr skippedResponse /\
  deleteIssued (handler (Scenario.runtime [markerTag "true"] Scenario.detectionsP1)
                  (eventOf Scenario.messageP1)) = false /\
  removedByEventSource
    (handler (Scenario.runtime [markerTag "true"] Scenario.detectionsP1)
       (eventOf Scenario.messageP1)) = true /\
  reachesAcknowledged
    (handler (Scenario.runtime [markerTag "true"] Scenario.detectionsP1)
       (eventOf Scenario.messageP1)) = true.
Proof.
  apply (@C1_marked_object_short_circuits_acknowledged
           (Scenario.runtime [markerTag "true"] Scenario.detectionsP1)
           Scenario.messageP1 (JString "b") (JString "posters/p1.jpg")
           [markerTag "true"]).
  - split; [exists Scenario.objectP1; split; reflexivity|].
    eexists; split; reflexivity.
  - left. reflexivity.
Defined.

(** On every runtime and message the skip sends one command, the fetch of
    the tags, and returns normally; the delete is not among its effects. *)
Lemma skip_sends_only_the_fetch (R : Runtime) (message : SQS.Message)
      (bucket key : JsValue) (existingTags : list Tag) :
  Fetched R message bucket key existingTags ->
  In (markerTag "true") existingTags ->
  commands (trace (handler R (eventOf message)))
    = [GetObjectTaggingCommand bucket key] /\
  result (handler R (eventOf message)) = inr skippedResponse /\
  deleteIssued (handler R (eventOf message)) = false.
Proof.
  intros Hf Hin. rewrite (skipped_run Hf Hin). repeat split.
Qed.

(** C9. Once the tags are fetched, the run short-circuits exactly when
    they contain the entry named 'rekognition_text_detection' with the
    value "true", compared as strings; a short-circuited run invokes no
    detector and writes neither item nor tag; any other run invokes the
    detector and, when the detector answers with detections, writes the
    item. The values "True" and "1" do not count as "true". *)
Theorem C9_short_circuit_iff_exactly_true (R : Runtime) (message : SQS.Message)
    (bucket key : JsValue) (existingTags : list Tag) :
  Fetched R message bucket key existingTags ->
  (shortCircuits (handler R (eventOf message)) <->
     In (markerTag "true") existingTags) /\
  (shortCircuits (handler R (eventOf message)) ->
     detectorInvoked (handler R (eventOf message)) = false /\
     storeWritten (handler R (eventOf message)) = false /\
     markerWritten (handler R (eventOf message)) = false) /\
  (~ shortCircuits (handler R (eventOf message)) ->
     detectorInvoked (handler R (eventOf message)) = true /\
     forall rr dets,
       send R (DetectTextCommand bucket key MinConfidence) = inr rr ->
       TextDetections rr = Some dets ->
       storeWritten (handler R (eventOf message)) = true) /\
  hasRekognitionTextDetectionTag [markerTag "True"] = false /\
  hasRekognitionTextDetectionTag [markerTag "1"] = false.
Proof.
  intros Hf.
  assert (Hiff : shortCircuits (handler R (eventOf message)) <->
                 In (markerTag "true") existingTags).
  { split.
    - intros Hs.
      destruct (hasRekognitionTextDetectionTag existingTags) eqn:E.
      + now apply hasRekognitionTextDetectionTag_In.
      + assert (Hn : ~ In (markerTag "true") existingTags).
        { intros Hin. apply hasRekognitionTextDetectionTag_In in Hin. congruence. }
        destruct (unskipped_run Hf Hn) as (t & r & Hrun & Hr & _).
        unfold shortCircuits in Hs. rewrite Hrun in Hs. now elim Hr.
    - intros Hin. unfold shortCircuits. now rewrite (skipped_run Hf Hin). }
  split; [exact Hiff|]. split; [|split; [|split; reflexivity]].
  - intros Hs. apply Hiff in Hs. rewrite (skipped_run Hf Hs). repeat split.
  - intros Hs. assert (Hn : ~ In (markerTag "true") existingTags) by tauto.
    destruct (unskipped_run Hf Hn) as (t & r & Hrun & _ & Hstore).
    rewrite Hrun. split; [reflexivity|].
    intros rr dets Hrr Hdets. destruct (Hstore rr dets Hrr Hdets) as [t' ->].
    reflexivity.
Qed.

(** C9 at the tag value "True": the detector is invoked and the item is
    written. *)
Lemma C9_witness_capitalised_true :
  (shortCircuits (handler (Scenario.runtime [markerTag "True"] Scenario.detectionsP1)
                    (eventOf Scenario.messageP1)) <->
     In (markerTag "true") [markerTag "True"]) /\
  detectorInvoked (handler (Scenario.runtime [markerTag "True"] Scenario.detectionsP1)
                     (eventOf Scenario.messageP1)) = true /\
  storeWritten (handler (Scenario.runtime [markerTag "True"] Scenario.detectionsP1)
                  (eventOf Scenario.messageP1)) = true.
Proof.
  assert (Hf : Fetched (Scenario.runtime [markerTag "True"] Scenario.detectionsP1)
                 Scenario.messageP1 (JString "b") (JString "posters/p1.jpg")
                 [markerTag "True"]).
  { split; [exists Scenario.objectP1; split; reflexivity|].
    eexists; split; reflexivity. }
  destruct (C9_short_circuit_iff_exactly_true Hf) as (Hiff & _ & Hfull & _).
  split; [exact Hiff|].
  assert (Hn : ~ shortCircuits
                 (handler (Scenario.runtime [markerTag "True"] Scenario.detectionsP1)
                    (eventOf Scenario.messageP1))).
  { intros Hs. apply Hiff in Hs. destruct Hs as [Hs|[]]. discriminate Hs. }
  destruct (Hfull Hn) as [Hd Hs]. split; [exact Hd|].
  apply (Hs (Scenario.detectionOutput Scenario.detectionsP1) Scenario.detectionsP1);
    reflexivity.
Defined.

(* ------------------------------------------------------------------ *)
(** ** Faults *)

Lemma commands_app (t1 t2 : list Effect) :
  commands (t1 ++ t2) = (commands t1 ++ commands t2)%list.
Proof.
  induction t1 as [|ev t1 IH]; [reflexivity|].
  destruct ev; simpl; now rewrite IH.
Qed.

Ltac same_answers :=
  repeat match goal with
         | H1 : ?x = _, H2 : ?x = _ |- _ =>
             rewrite H1 in H2; inversion H2; subst; clear H2
         end.

Section Faults.

Variable R : Runtime.
Variable message : SQS.Message.

(** A command other than the delete that the runtime answers with an
    error is the last command of the run; the run throws that very
    error and has not issued the delete. *)
Lemma fault_aborts (c : Command) (e : Error) :
  In c (commands (trace (handler R (eventOf message)))) ->
  is_DeleteMessage c = false ->
  send R c = inl e ->
  result (handler R (eventOf message)) = inl e /\
  deleteIssued (handler R (eventOf message)) = false /\
  exists cs, commands (trace (handler R (eventOf message))) = (cs ++ [c])%list.
Proof.
  run_inversion R message; run_observe; cbn [In];
    intros Hin Hdel Hc;
    repeat match goal with
           | H : _ \/ _ |- _ => destruct H as [H | H]
           | H : False |- _ => destruct H
           end;
    subst; cbn [is_DeleteMessage] in *; try discriminate; try congruence.
  all: same_answers.
  all: split; [reflexivity|]; split; [reflexivity|].
  all: match goal with
       | |- exists cs, ?l = _ => exists (removelast l); reflexivity
       end.
Qed.

(** No command is sent a second time: the run holds at most one command
    of each kind. *)
Lemma no_retry (kind : Command -> bool) :
  In kind [is_GetObjectTagging; is_DetectText; is_PutItem;
           is_PutObjectTagging; is_DeleteMessage] ->
  (length (filter kind (commands (trace (handler R (eventOf message))))) <= 1)%nat.
Proof.
  intros Hk. cbn [In] in Hk.
  run_inversion R message; run_observe;
    repeat match goal with
           | H : _ \/ _ |- _ => destruct H as [H | H]
           | H : False |- _ => destruct H
           end;
    subst; cbn; lia.
Qed.

(** A run that issued the delete had fetched the tags, received the
    detections, written the item and completed the tag update before,
    in that order, each with a normal answer. *)
Lemma delete_comes_last :
  deleteIssued (handler R (eventOf message)) = true ->
  exists bucket key existingTags rr dets t,
    Stored R message bucket key existingTags rr dets /\
    MarkerRun R bucket key existingTags (t, inr tt) /\
    commands (trace (handler R (eventOf message))) =
      ([GetObjectTaggingCommand bucket key;
        DetectTextCommand bucket key MinConfidence;
        putItemOf R bucket key dets] ++ commands t ++ [deleteOf message])%list.
Proof.
  pose proof (handler_run R message) as Hrun.
  remember (handler R (eventOf message)) as run.
  destruct Hrun;
    try (run_observe; discriminate);
    try match goal with
        | H : MarkerRun _ _ _ _ (_, inl _) |- _ =>
            inversion H; subst; run_observe; discriminate
        end.
  - intros _. exists bucket, key, existingTags, rekognitionResponse, detections, t.
    split; [assumption|]. split; [assumption|].
    unfold trace, storedPrefix. cbn [fst].
    rewrite !commands_app. reflexivity.
  - intros _. exists bucket, key, existingTags, rekognitionResponse, detections, t.
    split; [assumption|]. split; [assumption|].
    unfold trace, storedPrefix. cbn [fst].
    rewrite !commands_app. reflexivity.
Qed.

End Faults.

(** C3. The pipeline has no internal catch-and-retry. A command other than
    the delete (the fetch of the tags, the detection, the write of the
    item, the write of the tags) that is answered with an error ends the
    run: it is the last command sent, the handler throws that same error,
    and the delete of the queue message is not issued. No kind of command
    is sent twice in a run. And a run that issues the delete has before it,
    in this order, the fetch of the tags, the detection, the write of the
    item and the tag update, all completed normally. *)
Theorem C3_fault_aborts_run_unacknowledged (R : Runtime) (message : SQS.Message) :
  (forall c e,
      In c (commands (trace (handler R (eventOf message)))) ->
      is_DeleteMessage c = false ->
      send R c = inl e ->
      result (handler R (eventOf message)) = inl e /\
      deleteIssued (handler R (eventOf message)) = false /\
      acknowledged (handler R (eventOf message)) = false /\
      exists cs, commands (trace (handler R (eventOf message))) = (cs ++ [c])%list) /\
  (forall kind,
      In kind [is_GetObjectTagging; is_DetectText; is_PutItem;
               is_PutObjectTagging; is_DeleteMessage] ->
      (length (filter kind (commands (trace (handler R (eventOf message))))) <= 1)%nat) /\
  (deleteIssued (handler R (eventOf message)) = true ->
   exists bucket key existingTags rr dets t,
     Stored R message bucket key existingTags rr dets /\
     MarkerRun R bucket key existingTags (t, inr tt) /\
     commands (trace (handler R (eventOf message))) =
       ([GetObjectTaggingCommand bucket key;
         DetectTextCommand bucket key MinConfidence;
         putItemOf R bucket key dets] ++ commands t ++ [deleteOf message])%list).
Proof.
  split; [|split].
  - intros c e Hin Hdel Hc.
    destruct (fault_aborts R message c Hin Hdel Hc) as (Hr & Hd & Hlast).
    repeat split; trivial. unfold acknowledged. now rewrite Hd.
  - apply no_retry.
  - apply delete_comes_last.
Qed.

(** A body that does not parse: the handler logs and throws, nothing else. *)
Example malformed_body_run :
  handler (Scenario.runtime [] Scenario.detectionsP1)
    (eventOf Scenario.messageMalformed) = ([errorLine], inl SyntaxError).
Proof. reflexivity. Qed.

(** The detector not finding the object: the run ends at the detection,
    the error is thrown on, nothing is written, the delete is not issued. *)
Example detector_fault_run :
  handler (Scenario.runtimeNotFound []) (eventOf Scenario.messageP1) =
    ([processingLine (JString "b") (JString "posters/p1.jpg");
      Send (GetObjectTaggingCommand (JString "b") (JString "posters/p1.jpg"));
      Send (DetectTextCommand (JString "b") (JString "posters/p1.jpg") MinConfidence);
      errorLine],
     inl (ServiceError "InvalidS3ObjectException")).
Proof. reflexivity. Qed.

(* ------------------------------------------------------------------ *)
(** ** The identity of the object *)

Section Identity.

Variable R : Runtime.
Variable message : SQS.Message.

(** After the destructuring the handler goes on with whatever values
    it found: the first command carries them unchecked, and an item, if
    one is written, is the item of that identity. *)
Lemma identified_run (bucket key : JsValue) :
  Identified R message bucket key ->
  (exists t,
      trace (handler R (eventOf message)) =
        processingLine bucket key
          :: Send (GetObjectTaggingCommand bucket key) :: t) /\
  (forall item,
      In item (storedItems (commands (trace (handler R (eventOf message))))) ->
      s3Uri item = s3UriOf bucket key).
Proof.
  intros Hi. run_stages.
  run_inversion R message; run_observe; same_answers; try congruence.
  all: split; [eexists; reflexivity|].
  all: cbn [In]; intros item Hin;
    repeat match goal with
           | H : _ \/ _ |- _ => destruct H as [H | H]
           | H : False |- _ => destruct H
           end; subst; reflexivity.
Qed.

(** An item written by a run is the item of the detections the
    detector returned in that run. *)
Lemma stored_item_inv (item : Item) :
  In item (storedItems (commands (trace (handler R (eventOf message))))) ->
  exists bucket key existingTags rr dets,
    Detected R message bucket key existingTags rr dets /\
    item = itemOf R bucket key dets.
Proof.
  pose proof (handler_run R message) as Hrun.
  remember (handler R (eventOf message)) as run.
  destruct Hrun;
    try match goal with
        | H : Stored _ _ _ _ _ _ _ |- _ => destruct H as [H ?]
        end;
    repeat match goal with
           | H : MarkerRun _ _ _ _ (_, _) |- _ => inversion H; subst; clear H
           end;
    run_observe; cbn [In]; intros Hin;
    repeat match goal with
           | H : _ \/ _ |- _ => destruct H as [H | H]
           | H : False |- _ => destruct H
           end; subst; eauto 10.
Qed.

End Identity.

(** With services that answer every call, the fetch of the tags of an
    undefined object included, the body [{}] runs to the end and an item
    with the interpolated identity is written: the handler itself stops
    nothing. *)
Example answering_services_store_undefined_identity :
  lacksIdentity (Scenario.runtime [] Scenario.detectionsP1) Scenario.messageEmptyObject /\
  result (handler (Scenario.runtime [] Scenario.detectionsP1)
            (eventOf Scenario.messageEmptyObject))
    = inr (completedResponse (Scenario.detectionOutput Scenario.detectionsP1)) /\
  storedItems (commands (trace (handler (Scenario.runtime [] Scenario.detectionsP1)
                                  (eventOf Scenario.messageEmptyObject))))
    = [ {| s3Uri := "s3://undefined/undefined";
           text_detected_flattened := "FINDME NOW";
           contains_word := true |} ].
Proof.
  split; [left; reflexivity|]. split; reflexivity.
Qed.

(** A body that [JSON.parse] rejects, or that parses to [null], makes the
    handler throw before any command is sent. A body that parses to an
    object goes on with the values found: a missing property is
    undefined, the run starts by fetching the tags with them, and every
    item the run writes carries the identity interpolated from them. *)
Lemma body_is_parsed_not_validated (R : Runtime) (message : SQS.Message) :
  (JSON_parse R (SQS.body message) = None ->
     handler R (eventOf message) = ([errorLine], inl SyntaxError)) /\
  (JSON_parse R (SQS.body message) = Some JNull ->
     handler R (eventOf message) = ([errorLine], inl TypeError)) /\
  (forall fields,
     JSON_parse R (SQS.body message) = Some (JObject fields) ->
     (exists t,
         trace (handler R (eventOf message)) =
           processingLine (getField "bucket" fields) (getField "key" fields)
             :: Send (GetObjectTaggingCommand (getField "bucket" fields)
                                              (getField "key" fields)) :: t) /\
     (forall item,
         In item (storedItems (commands (trace (handler R (eventOf message))))) ->
         s3Uri item = s3UriOf (getField "bucket" fields) (getField "key" fields))) /\
  getField "bucket" [] = JUndefined /\
  getField "key" [("bucket", JString "b")] = JUndefined /\
  s3UriOf (JString "b") JUndefined = "s3://b/undefined".
Proof.
  split; [|split; [|split; [|repeat split]]].
  - intros Hp. apply Run_fun. now apply RunParseError.
  - intros Hp. apply Run_fun. now apply RunNoObject with JNull.
  - intros fields Hp. apply identified_run.
    exists (JObject fields). split; [exact Hp | reflexivity].
Qed.




(** The same client on a malformed body. *)
Example malformed_body_with_strict_client :
  handler Cases.runtimeStrictClient (eventOf Scenario.messageMalformed)
    = ([errorLine], inl SyntaxError).
Proof. reflexivity. Qed.

(* ------------------------------------------------------------------ *)
(** ** The stored text and flag *)

Section CaseFolding.

Variable lower : string -> string.




End CaseFolding.


(** C5. The flattened text is the texts of the LINE fragments, in their
    order, with " | " between consecutive ones: without a LINE fragment it
    is empty; a LINE fragment followed by none contributes its text; a
    LINE fragment followed by others contributes its text, the separator
    and the flattened text of the rest; and a fragment of any other type,
    WORD among them, can be removed without changing the text. *)
Theorem C5_flattened_text_joins_line_fragments (detections : list TextDetection) :
  detectedText detections
    = Js.join " | " (map DetectedText (filter isLine detections)) /\
  (forall R bucket key,
      text_detected_flattened (itemOf R bucket key detections)
        = detectedText detections) /\
  (existsb isLine detections = false -> detectedText detections = "") /\
  (forall line,
      isLine line = true -> existsb isLine detections = false ->
      detectedText (line :: detections) = DetectedText line) /\
  (forall line,
      isLine line = true -> existsb isLine detections = true ->
      detectedText (line :: detections)
        = DetectedText line ++ " | " ++ detectedText detections) /\
  (forall before fragment after,
      detections = (before ++ fragment :: after)%list ->
      Type_ fragment <> "LINE" ->
      detectedText detections = detectedText (before ++ after)) /\
  detectedText
    [{| Type_ := "LINE"; DetectedText := "COMING"; Confidence := 99 |};
     {| Type_ := "WORD"; DetectedText := "COMING"; Confidence := 99 |};
     {| Type_ := "LINE"; DetectedText := "SOON"; Confidence := 98 |};
     {| Type_ := "WORD"; DetectedText := "SOON"; Confidence := 98 |};
     {| Type_ := "LINE"; DetectedText := "2025"; Confidence := 97 |}]
    = "COMING | SOON | 2025".
Proof.
  assert (Hnone : forall l, existsb isLine l = false ->
                            forallb (fun d => negb (isLine d)) l = true).
  { induction l as [|d l IH]; [reflexivity|]. simpl.
    intros H. apply orb_false_iff in H as [-> Hl]. simpl. auto. }
  split; [reflexivity|]. split; [reflexivity|].
  split; [|split; [|split; [|split; [|reflexivity]]]].
  - intros H. now apply detectedText_no_line, Hnone.
  - intros line Hl H. apply detectedText_line_last; auto.
  - intros line Hl H. now apply detectedText_line_more.
  - intros before fragment after -> Hty. apply detectedText_drop.
    unfold isLine. now apply String.eqb_neq.
Qed.

(* ------------------------------------------------------------------ *)
(** ** The tag sets written *)

Section TagSets.

Lemma markerEntries_app (l1 l2 : list Tag) :
  markerEntries (l1 ++ l2) = (markerEntries l1 + markerEntries l2)%nat.
Proof. unfold markerEntries. now rewrite filter_app, length_app. Qed.

Lemma markerEntries_cons_marker (value : string) (l : list Tag) :
  markerEntries (markerTag value :: l) = S (markerEntries l).
Proof. reflexivity. Qed.

Lemma markerEntries_In (value : string) (l : list Tag) :
  In (markerTag value) l -> (1 <= markerEntries l)%nat.
Proof.
  intros Hin. apply in_split in Hin as (l1 & l2 & ->).
  rewrite markerEntries_app, markerEntries_cons_marker. lia.
Qed.

Lemma marker_value_unique (l : list Tag) (v v' : string) :
  (markerEntries l <= 1)%nat ->
  In (markerTag v) l -> In (markerTag v') l -> v = v'.
Proof.
  intros Hle Hin Hin'. apply in_split in Hin as (l1 & l2 & ->).
  rewrite markerEntries_app, markerEntries_cons_marker in Hle.
  apply in_app_or in Hin' as [H | [H | H]].
  - apply markerEntries_In in H. lia.
  - now injection H.
  - apply markerEntries_In in H. lia.
Qed.

Lemma updatedTagSet_fixes_unmarked (l : list Tag) :
  markerEntries l = 0%nat -> updatedTagSet l = l.
Proof.
  unfold markerEntries, updatedTagSet.
  induction l as [|tag l IH]; [reflexivity|]. simpl.
  destruct (Key tag =? processedByRekognitionTextDetectionTag); simpl;
    [discriminate|]. intros H. now rewrite IH.
Qed.

Lemma updatedTagSet_app (l1 l2 : list Tag) :
  updatedTagSet (l1 ++ l2) = (updatedTagSet l1 ++ updatedTagSet l2)%list.
Proof. apply map_app. Qed.

Lemma updatedTagSet_length (l : list Tag) :
  length (updatedTagSet l) = length l.
Proof. apply length_map. Qed.

Lemma updatedTagSet_nth (l : list Tag) (i : nat) (tag : Tag) :
  nth_error l i = Some tag ->
  nth_error (updatedTagSet l) i
    = Some (if unrelated tag then tag else markerTag "true").
Proof.
  intros H. unfold updatedTagSet. rewrite nth_error_map, H. simpl.
  unfold unrelated, markerTag.
  destruct (Key tag =? processedByRekognitionTextDetectionTag) eqn:E; simpl;
    [|reflexivity].
  apply String.eqb_eq in E. now rewrite E.
Qed.

Lemma updatedTagSet_unrelated (l : list Tag) :
  filter unrelated (updatedTagSet l) = filter unrelated l.
Proof.
  unfold updatedTagSet, unrelated.
  induction l as [|tag l IH]; [reflexivity|]. simpl.
  destruct (Key tag =? processedByRekognitionTextDetectionTag) eqn:E; simpl;
    rewrite E; simpl; now rewrite IH.
Qed.

Lemma extendedTagSet_unrelated (l : list Tag) :
  filter unrelated (extendedTagSet l) = filter unrelated l.
Proof.
  unfold extendedTagSet. rewrite filter_app. simpl. apply app_nil_r.
Qed.

Lemma markerEntries_updated (l : list Tag) :
  markerEntries (updatedTagSet l) = markerEntries l.
Proof.
  unfold updatedTagSet, markerEntries.
  induction l as [|tag l IH]; [reflexivity|]. simpl.
  destruct (Key tag =? processedByRekognitionTextDetectionTag) eqn:E; simpl;
    rewrite E; simpl; now rewrite IH.
Qed.

Lemma markerEntries_extended (l : list Tag) :
  markerEntries (extendedTagSet l) = S (markerEntries l).
Proof.
  unfold extendedTagSet. rewrite markerEntries_app. simpl.
  unfold markerEntries at 2. simpl. lia.
Qed.

(** With one entry of the marker's name, and that one 'false', the
    update changes that entry and nothing else. *)
Lemma updatedTagSet_single (l : list Tag) :
  markerEntries l = 1%nat ->
  In (markerTag "false") l ->
  exists before after,
    l = (before ++ markerTag "false" :: after)%list /\
    updatedTagSet l = (before ++ markerTag "true" :: after)%list.
Proof.
  intros Hone Hin. apply in_split in Hin as (l1 & l2 & ->).
  exists l1, l2. split; [reflexivity|].
  rewrite markerEntries_app, markerEntries_cons_marker in Hone.
  rewrite updatedTagSet_app. change (updatedTagSet (markerTag "false" :: l2))
    with (markerTag "true" :: updatedTagSet l2).
  rewrite !updatedTagSet_fixes_unmarked by lia. reflexivity.
Qed.

Variable R : Runtime.
Variable message : SQS.Message.

(** A tag set written by a run is the rewrite of the fetched tags when
    they hold the marker 'false', their extension by the marker when
    they do not and are fewer than ten. *)
Lemma written_tags_inv (tags : list Tag) :
  In tags (writtenTagSets (commands (trace (handler R (eventOf message))))) ->
  exists bucket key existingTags,
    Fetched R message bucket key existingTags /\
    hasRekognitionTextDetectionTag existingTags = false /\
    writtenTagSets (commands (trace (handler R (eventOf message)))) = [tags] /\
    ((hasFalseTag existingTags = true /\ tags = updatedTagSet existingTags) \/
     (hasFalseTag existingTags = false /\ (length existingTags < 10)%nat /\
      tags = extendedTagSet existingTags)).
Proof.
  pose proof (handler_run R message) as Hrun.
  remember (handler R (eventOf message)) as run.
  destruct Hrun;
    repeat match goal with
           | H : Stored _ _ _ _ _ _ _ |- _ => destruct H as [H ?]
           | H : Detected _ _ _ _ _ _ _ |- _ => destruct H as (H & ? & ? & ?)
           end;
    repeat match goal with
           | H : MarkerRun _ _ _ _ (_, _) |- _ => inversion H; subst; clear H
           end;
    run_observe; cbn [In]; intros Hin;
    repeat match goal with
           | H : _ \/ _ |- _ => destruct H as [H | H]
           | H : False |- _ => destruct H
           end; subst; eauto 12.
Qed.

(** The run on the path through the detector, when the table and the
    queue accept the calls: it is the prefix up to the write of the
    item, the tag update, and the delete. *)
Lemma completed_run (bucket key : JsValue) (existingTags : list Tag)
      (rr : Output) (dets : list TextDetection) (t : list Effect) :
  Detected R message bucket key existingTags rr dets ->
  accepts R is_PutItem ->
  accepts R is_DeleteMessage ->
  MarkerRun R bucket key existingTags (t, inr tt) ->
  handler R (eventOf message) =
    ((storedPrefix R bucket key rr dets ++ t ++ [Send (deleteOf message)])%list,
     inr (completedResponse rr)).
Proof.
  intros Hd Hput Hdel Hm.
  destruct (Hput (putItemOf R bucket key dets) eq_refl) as [o1 Ho1].
  destruct (Hdel (deleteOf message) eq_refl) as [o2 Ho2].
  apply Run_fun. apply RunCompleted with existingTags o2; trivial.
  split; eauto.
Qed.

End TagSets.

(** The tag set a run writes once the item is stored: the rewrite when
    the fetched tags hold the marker 'false', whatever their number; else
    the extension when they are fewer than ten; else none. *)
Lemma stored_run_writes (R : Runtime) (message : SQS.Message)
      (bucket key : JsValue) (existingTags : list Tag) (rr : Output)
      (dets : list TextDetection) :
  Stored R message bucket key existingTags rr dets ->
  writtenTagSets (commands (trace (handler R (eventOf message)))) =
    (if hasFalseTag existingTags then [updatedTagSet existingTags]
     else if (length existingTags <? 10)%nat then [extendedTagSet existingTags]
     else []).
Proof.
  intros Hs.
  pose proof (handler_run R message) as Hrun.
  remember (handler R (eventOf message)) as run.
  destruct Hs as [Hd [o Ho]].
  destruct Hrun;
    repeat match goal with
           | H : Stored _ _ _ _ _ _ _ |- _ => destruct H as [H ?]
           end;
    try match goal with
        | H : Detected _ _ _ _ _ _ _ |- _ =>
            destruct (Detected_fun Hd H) as (<- & <- & <- & <- & <-)
        end;
    repeat match goal with
           | H : MarkerRun _ _ _ _ (_, _) |- _ => inversion H; subst; clear H
           end;
    repeat match goal with
           | H : hasFalseTag _ = _ |- _ => rewrite H
           | H : (length _ < 10)%nat |- _ => apply Nat.ltb_lt in H; rewrite H
           | H : (10 <= length _)%nat |- _ => apply Nat.ltb_ge in H; rewrite H
           end;
    try reflexivity;
    destruct Hd as (Hf' & Hno & Hrr & Hdets); run_stages;
    unfold ret, throw, putItemOf in *; same_answers; congruence.
Qed.

(** C6. In a run that reaches the tag update (the item was stored) on
    tags holding the marker with value "false", the handler writes exactly
    one tag set, however many tags there are: the fetched set with the
    value of every entry named 'rekognition_text_detection' set to "true".
    It has the same length and, at every position, the fetched entry
    itself unless the entry has that name; when the name occurs once, as
    it does in a tag set of S3, it is the fetched set with that single
    entry's value changed to "true", all other entries and the order
    unchanged. And whatever tag set any run writes, for any object, keeps
    every entry that is not the idempotency tag, in the same order. *)
Theorem C6_marker_rewrite_preserves_other_entries
    (R : Runtime) (message : SQS.Message) (bucket key : JsValue)
    (existingTags : list Tag) (rr : Output) (dets : list TextDetection) :
  Stored R message bucket key existingTags rr dets ->
  In (markerTag "false") existingTags ->
  (exists tags,
      writtenTagSets (commands (trace (handler R (eventOf message)))) = [tags] /\
      tags = updatedTagSet existingTags /\
      filter unrelated tags = filter unrelated existingTags /\
      length tags = length existingTags /\
      (forall i tag,
          nth_error existingTags i = Some tag ->
          nth_error tags i = Some (if unrelated tag then tag else markerTag "true")) /\
      (markerEntries existingTags = 1%nat ->
       exists before after,
         existingTags = (before ++ markerTag "false" :: after)%list /\
         tags = (before ++ markerTag "true" :: after)%list)) /\
  (forall R' message' bucket' key' existingTags' tags',
      Fetched R' message' bucket' key' existingTags' ->
      In tags' (writtenTagSets (commands (trace (handler R' (eventOf message'))))) ->
      filter unrelated tags' = filter unrelated existingTags').
Proof.
  intros Hs Hin. split.
  - exists (updatedTagSet existingTags).
    rewrite (stored_run_writes Hs).
    apply hasFalseTag_In in Hin. rewrite Hin.
    split; [reflexivity|]. split; [reflexivity|].
    split; [apply updatedTagSet_unrelated|].
    split; [apply updatedTagSet_length|].
    split; [apply updatedTagSet_nth|].
    intros Hone. apply updatedTagSet_single; trivial.
    now apply hasFalseTag_In.
  - intros R' message' b' k' l' tags' Hf' Hin'.
    destruct (written_tags_inv R' message' tags' Hin')
      as (b & k & l & Hf & _ & _ & Hcase).
    destruct (Fetched_fun Hf' Hf) as (<- & <- & <-).
    destruct Hcase as [[_ ->] | (_ & _ & ->)].
    + apply updatedTagSet_unrelated.
    + apply extendedTagSet_unrelated.
Qed.

(** C6 on an object tagged project, marker 'false', owner. *)
Lemma C6_witness_false_between_two_tags :
  (exists tags,
      writtenTagSets (commands (trace (handler
          (Scenario.runtime Scenario.tagsWithFalse Scenario.detectionsP1)
          (eventOf Scenario.messageP1)))) = [tags] /\
      tags = updatedTagSet Scenario.tagsWithFalse /\
      filter unrelated tags = filter unrelated Scenario.tagsWithFalse /\
      length tags = length Scenario.tagsWithFalse /\
      (forall i tag,
          nth_error Scenario.tagsWithFalse i = Some tag ->
          nth_error tags i = Some (if unrelated tag then tag else markerTag "true")) /\
      (markerEntries Scenario.tagsWithFalse = 1%nat ->
       exists before after,
         Scenario.tagsWithFalse = (before ++ markerTag "false" :: after)%list /\
         tags = (before ++ markerTag "true" :: after)%list)) /\
  (forall R' message' bucket' key' existingTags' tags',
      Fetched R' message' bucket' key' existingTags' ->
      In tags' (writtenTagSets (commands (trace (handler R' (eventOf message'))))) ->
      filter unrelated tags' = filter unrelated existingTags').
Proof.
  apply (@C6_marker_rewrite_preserves_other_entries
           (Scenario.runtime Scenario.tagsWithFalse Scenario.detectionsP1)
           Scenario.messageP1 (JString "b") (JString "posters/p1.jpg")
           Scenario.tagsWithFalse
           (Scenario.detectionOutput Scenario.detectionsP1)
           Scenario.detectionsP1).
  - split; [split; [split|split; [reflexivity|split; reflexivity]]|].
    + exists Scenario.objectP1. split; reflexivity.
    + eexists. split; reflexivity.
    + eexists. reflexivity.
  - right. left. reflexivity.
Defined.

(** Ten tags, the marker 'false' among them: the rewrite is still sent. *)
Example rewrite_at_the_cap :
  writtenTagSets (commands (trace (handler
      (Scenario.runtime (markerTag "false" :: tl Scenario.tenTags)
         Scenario.detectionsP1)
      (eventOf Scenario.messageP1))))
    = [markerTag "true" :: tl Scenario.tenTags].
Proof. reflexivity. Qed.

(** C7. An object with ten tags, none of them the marker with value
    "true" or "false": when the detector answers and the table and the
    queue accept the calls, the run writes the item, writes no tag, logs
    the line about the maximum of ten tags, issues the delete and returns
    its success response. *)
Theorem C7_tag_cap_skips_marker_write_only
    (R : Runtime) (message : SQS.Message) (bucket key : JsValue)
    (existingTags : list Tag) (rr : Output) (dets : list TextDetection) :
  Fetched R message bucket key existingTags ->
  length existingTags = 10%nat ->
  ~ In (markerTag "true") existingTags ->
  ~ In (markerTag "false") existingTags ->
  send R (DetectTextCommand bucket key MinConfidence) = inr rr ->
  TextDetections rr = Some dets ->
  accepts R is_PutItem ->
  accepts R is_DeleteMessage ->
  handler R (eventOf message) =
    ((storedPrefix R bucket key rr dets ++
      [cappedLine bucket key; Send (deleteOf message)])%list,
     inr (completedResponse rr)) /\
  storedItems (commands (trace (handler R (eventOf message))))
    = [itemOf R bucket key dets] /\
  storeWritten (handler R (eventOf message)) = true /\
  markerWritten (handler R (eventOf message)) = false /\
  acknowledged (handler R (eventOf message)) = true.
Proof.
  intros Hf Hlen Htrue Hfalse Hrr Hdets Hput Hdel.
  assert (Hd : Detected R message bucket key existingTags rr dets).
  { split; [exact Hf|]. split; [|split; trivial].
    destruct (hasRekognitionTextDetectionTag existingTags) eqn:E; trivial.
    now apply hasRekognitionTextDetectionTag_In in E. }
  assert (Hm : MarkerRun R bucket key existingTags ([cappedLine bucket key], inr tt)).
  { apply MarkerCapped; [|lia].
    destruct (hasFalseTag existingTags) eqn:E; trivial.
    now apply hasFalseTag_In in E. }
  rewrite (completed_run Hd Hput Hdel Hm). repeat split.
Qed.

(** C7 on an object carrying ten tags. *)
Lemma C7_witness_ten_tags :
  handler (Scenario.runtime Scenario.tenTags Scenario.detectionsP1)
    (eventOf Scenario.messageP1) =
    ((storedPrefix (Scenario.runtime Scenario.tenTags Scenario.detectionsP1)
        (JString "b") (JString "posters/p1.jpg")
        (Scenario.detectionOutput Scenario.detectionsP1) Scenario.detectionsP1 ++
      [cappedLine (JString "b") (JString "posters/p1.jpg");
       Send (deleteOf Scenario.messageP1)])%list,
     inr (completedResponse (Scenario.detectionOutput Scenario.detectionsP1))) /\
  storedItems (commands (trace (handler
      (Scenario.runtime Scenario.tenTags Scenario.detectionsP1)
      (eventOf Scenario.messageP1))))
    = [itemOf (Scenario.runtime Scenario.tenTags Scenario.detectionsP1)
         (JString "b") (JString "posters/p1.jpg") Scenario.detectionsP1] /\
  storeWritten (handler (Scenario.runtime Scenario.tenTags Scenario.detectionsP1)
                  (eventOf Scenario.messageP1)) = true /\
  markerWritten (handler (Scenario.runtime Scenario.tenTags Scenario.detectionsP1)
                   (eventOf Scenario.messageP1)) = false /\
  acknowledged (handler (Scenario.runtime Scenario.tenTags Scenario.detectionsP1)
                  (eventOf Scenario.messageP1)) = true.
Proof.
  apply (@C7_tag_cap_skips_marker_write_only
           (Scenario.runtime Scenario.tenTags Scenario.detectionsP1)
           Scenario.messageP1 (JString "b") (JString "posters/p1.jpg")
           Scenario.tenTags).
  - split; [exists Scenario.objectP1; split; reflexivity|].
    eexists; split; reflexivity.
  - reflexivity.
  - intros H. apply hasRekognitionTextDetectionTag_In in H. discriminate H.
  - intros H. apply hasFalseTag_In in H. discriminate H.
  - reflexivity.
  - reflexivity.
  - intros c Hc. destruct c; try discriminate Hc. eexists; reflexivity.
  - intros c Hc. destruct c; try discriminate Hc. eexists; reflexivity.
Defined.

(** C8. The message {bucket:"b", key:"posters/p1.jpg"} for an object
    without tags, a detector returning the LINE fragment "FINDME NOW" and
    the WORD fragment "findme", the word to detect "findme", and a table,
    tag store and queue that accept the calls: the run writes the item
    with identity "s3://b/posters/p1.jpg", text "FINDME NOW" and flag
    true, writes the tag set holding the one entry
    (rekognition_text_detection, "true"), issues the delete of the message
    and returns its success response. *)
Theorem C8_scenario_untagged_poster
    (R : Runtime) (message : SQS.Message) (taggingResponse rr : Output)
    (confidenceLine confidenceWord : Q) :
  JSON_parse R (SQS.body message)
    = Some (JObject [("bucket", JString "b"); ("key", JString "posters/p1.jpg")]) ->
  send R (GetObjectTaggingCommand (JString "b") (JString "posters/p1.jpg"))
    = inr taggingResponse ->
  existingTagsOf taggingResponse = [] ->
  send R (DetectTextCommand (JString "b") (JString "posters/p1.jpg") MinConfidence)
    = inr rr ->
  TextDetections rr
    = Some [ {| Type_ := "LINE"; DetectedText := "FINDME NOW";
                Confidence := confidenceLine |};
             {| Type_ := "WORD"; DetectedText := "findme";
                Confidence := confidenceWord |} ] ->
  WORD_TO_DETECT (env R) = "findme" ->
  accepts R is_PutItem ->
  accepts R is_PutObjectTagging ->
  accepts R is_DeleteMessage ->
  commands (trace (handler R (eventOf message))) =
    [ GetObjectTaggingCommand (JString "b") (JString "posters/p1.jpg");
      DetectTextCommand (JString "b") (JString "posters/p1.jpg") MinConfidence;
      PutItemCommand (DYNAMODB_TABLE (env R))
        {| s3Uri := "s3://b/posters/p1.jpg";
           text_detected_flattened := "FINDME NOW";
           contains_word := true |};
      PutObjectTaggingCommand (JString "b") (JString "posters/p1.jpg")
        [markerTag "true"];
      deleteOf message ] /\
  result (handler R (eventOf message)) = inr (completedResponse rr) /\
  acknowledged (handler R (eventOf message)) = true.
Proof.
  intros Hp Hget Htags Hrr Hdets Hword Hput Htag Hdel.
  set (b := JString "b"). set (k := JString "posters/p1.jpg").
  set (dets := [ {| Type_ := "LINE"; DetectedText := "FINDME NOW";
                    Confidence := confidenceLine |};
                 {| Type_ := "WORD"; DetectedText := "findme";
                    Confidence := confidenceWord |} ]) in *.
  assert (Hd : Detected R message b k [] rr dets).
  { split; [split|split; [reflexivity|split; trivial]].
    - eexists. split; [exact Hp | reflexivity].
    - exists taggingResponse. split; trivial. }
  destruct (Htag (PutObjectTaggingCommand b k (extendedTagSet [])) eq_refl)
    as [o Ho].
  assert (Hm : MarkerRun R b k []
                 ([Send (PutObjectTaggingCommand b k (extendedTagSet []));
                   addedLine b k], inr tt)).
  { apply MarkerAdded with o; trivial. simpl. lia. }
  rewrite (completed_run Hd Hput Hdel Hm).
  unfold storedPrefix, putItemOf, itemOf, trace, result, acknowledged,
    deleteIssued. cbn [fst snd app commands].
  rewrite Hword. repeat split.
Qed.

(** C8 with services that answer every call. *)
Lemma C8_witness_answering_services :
  commands (trace (handler (Scenario.runtime [] Scenario.detectionsP1)
                     (eventOf Scenario.messageP1))) =
    [ GetObjectTaggingCommand (JString "b") (JString "posters/p1.jpg");
      DetectTextCommand (JString "b") (JString "posters/p1.jpg") MinConfidence;
      PutItemCommand "s3-object-image-recognition-mapping"
        {| s3Uri := "s3://b/posters/p1.jpg";
           text_detected_flattened := "FINDME NOW";
           contains_word := true |};
      PutObjectTaggingCommand (JString "b") (JString "posters/p1.jpg")
        [markerTag "true"];
      deleteOf Scenario.messageP1 ] /\
  result (handler (Scenario.runtime [] Scenario.detectionsP1)
            (eventOf Scenario.messageP1))
    = inr (completedResponse (Scenario.detectionOutput Scenario.detectionsP1)) /\
  acknowledged (handler (Scenario.runtime [] Scenario.detectionsP1)
                  (eventOf Scenario.messageP1)) = true.
Proof.
  apply (@C8_scenario_untagged_poster
           (Scenario.runtime [] Scenario.detectionsP1) Scenario.messageP1
           (Scenario.taggingOutput [])
           (Scenario.detectionOutput Scenario.detectionsP1) 95 95).
  - reflexivity.
  - reflexivity.
  - reflexivity.
  - reflexivity.
  - reflexivity.
  - reflexivity.
  - intros c Hc. destruct c; try discriminate Hc. eexists; reflexivity.
  - intros c Hc. destruct c; try discriminate Hc. eexists; reflexivity.
  - intros c Hc. destruct c; try discriminate Hc. eexists; reflexivity.
Defined.

(** C10. Fewer than ten tags, at most one of them named
    'rekognition_text_detection'. If that entry has a value other than
    "true" and "false", a run that reaches the tag update writes the
    fetched tags followed by a new entry (rekognition_text_detection,
    "true"): the old entry is still there and the written set holds two
    entries of that name. A written tag set holds at most one entry of
    that name exactly when the fetched tags had none or had it with value
    "false"; with value "true" no tag set is written at all. *)
Theorem C10_other_marker_value_gets_second_entry
    (R : Runtime) (message : SQS.Message) (bucket key : JsValue)
    (existingTags : list Tag) :
  Fetched R message bucket key existingTags ->
  (length existingTags < 10)%nat ->
  (markerEntries existingTags <= 1)%nat ->
  (forall value rr dets,
      In (markerTag value) existingTags ->
      value <> "true" -> value <> "false" ->
      Stored R message bucket key existingTags rr dets ->
      writtenTagSets (commands (trace (handler R (eventOf message))))
        = [(existingTags ++ [markerTag "true"])%list] /\
      In (markerTag value) (existingTags ++ [markerTag "true"]) /\
      markerEntries (existingTags ++ [markerTag "true"]) = 2%nat) /\
  (forall tags,
      In tags (writtenTagSets (commands (trace (handler R (eventOf message))))) ->
      ((markerEntries tags <= 1)%nat <->
       markerEntries existingTags = 0%nat \/ In (markerTag "false") existingTags)) /\
  (In (markerTag "true") existingTags ->
   writtenTagSets (commands (trace (handler R (eventOf message)))) = []).
Proof.
  intros Hf Hlen Hone. split; [|split].
  - intros value rr dets Hin Ht Hfl Hs.
    assert (Hnf : hasFalseTag existingTags = false).
    { destruct (hasFalseTag existingTags) eqn:E; trivial.
      apply hasFalseTag_In in E.
      now elim Hfl; apply (@marker_value_unique existingTags value "false" Hone Hin E). }
    pose proof (handler_run R message) as Hrun.
    remember (handler R (eventOf message)) as run.
    assert (Hw : writtenTagSets (commands (trace run))
                 = [extendedTagSet existingTags]).
    { destruct Hs as [Hd [o Ho]].
      destruct Hrun;
        repeat match goal with
               | H : Stored _ _ _ _ _ _ _ |- _ => destruct H as [H ?]
               end;
        try match goal with
            | H : Detected _ _ _ _ _ _ _ |- _ =>
                destruct (Detected_fun Hd H) as (<- & <- & <- & <- & <-)
            end;
        repeat match goal with
               | H : MarkerRun _ _ _ _ (_, _) |- _ => inversion H; subst; clear H
               end;
        try congruence; try lia; try reflexivity;
        destruct Hd as (Hf' & Hno & Hrr & Hdets); run_stages;
        unfold ret, throw, putItemOf in *; same_answers; congruence. }
    rewrite Hw. split; [reflexivity|]. split; [apply in_or_app; now left|].
    change (existingTags ++ [markerTag "true"])%list
      with (extendedTagSet existingTags).
    rewrite markerEntries_extended.
    apply markerEntries_In in Hin. lia.
  - intros tags Hin.
    destruct (written_tags_inv R message tags Hin)
      as (b & k & l & Hf' & _ & _ & Hcase).
    destruct (Fetched_fun Hf Hf') as (<- & <- & <-).
    destruct Hcase as [[Hfalse ->] | (Hfalse & _ & ->)].
    + rewrite markerEntries_updated. apply hasFalseTag_In in Hfalse. tauto.
    + rewrite markerEntries_extended. split; [intros; left; lia|].
      intros [H | H]; [lia|]. apply hasFalseTag_In in H. congruence.
  - intros Hin. now rewrite (skipped_run Hf Hin).
Qed.

(** C10 on an object whose marker has the value "pending". *)
Lemma C10_witness_pending_marker :
  (forall value rr dets,
      In (markerTag value) [markerTag "pending"] ->
      value <> "true" -> value <> "false" ->
      Stored (Scenario.runtime [markerTag "pending"] Scenario.detectionsP1)
        Scenario.messageP1 (JString "b") (JString "posters/p1.jpg")
        [markerTag "pending"] rr dets ->
      writtenTagSets (commands (trace (handler
          (Scenario.runtime [markerTag "pending"] Scenario.detectionsP1)
          (eventOf Scenario.messageP1))))
        = [([markerTag "pending"] ++ [markerTag "true"])%list] /\
      In (markerTag value) ([markerTag "pending"] ++ [markerTag "true"]) /\
      markerEntries ([markerTag "pending"] ++ [markerTag "true"]) = 2%nat) /\
  (forall tags,
      In tags (writtenTagSets (commands (trace (handler
          (Scenario.runtime [markerTag "pending"] Scenario.detectionsP1)
          (eventOf Scenario.messageP1))))) ->
      ((markerEntries tags <= 1)%nat <->
       markerEntries [markerTag "pending"] = 0%nat \/
       In (markerTag "false") [markerTag "pending"])) /\
  (In (markerTag "true") [markerTag "pending"] ->
   writtenTagSets (commands (trace (handler
       (Scenario.runtime [markerTag "pending"] Scenario.detectionsP1)
       (eventOf Scenario.messageP1)))) = []).
Proof.
  apply (@C10_other_marker_value_gets_second_entry
           (Scenario.runtime [markerTag "pending"] Scenario.detectionsP1)
           Scenario.messageP1 (JString "b") (JString "posters/p1.jpg")
           [markerTag "pending"]).
  - split; [exists Scenario.objectP1; split; reflexivity|].
    eexists; split; reflexivity.
  - simpl. lia.
  - unfold markerEntries. simpl. lia.
Defined.

(** The run on that object: the tag set sent holds the marker twice. *)
Example pending_marker_run :
  writtenTagSets (commands (trace (handler
      (Scenario.runtime [markerTag "pending"] Scenario.detectionsP1)
      (eventOf Scenario.messageP1))))
    = [[markerTag "pending"; markerTag "true"]].
Proof. reflexivity. Qed.

(* ------------------------------------------------------------------ *)
(** ** The queue URL *)

Section QueueUrl.

Variable c : ascii.

Lemma split_without_separator (s : string) :
  hasChar c s = false -> Js.split c s = [s].
Proof.
  induction s as [|a s IH]; [reflexivity|]. simpl.
  intros H. apply orb_false_iff in H as [Ha Hs].
  rewrite Ha, (IH Hs). reflexivity.
Qed.

Lemma split_at_separator (p rest : string) :
  hasChar c p = false ->
  Js.split c (p ++ String c rest) = p :: Js.split c rest.
Proof.
  induction p as [|a p IH]; simpl.
  - intros _. now rewrite Ascii.eqb_refl.
  - intros H. apply orb_false_iff in H as [Ha Hp].
    rewrite Ha, (IH Hp). reflexivity.
Qed.

(** Splitting what was joined gives the pieces back, when no piece
    contains the separator. *)
Lemma split_join (parts : list string) :
  parts <> [] ->
  (forall p, In p parts -> hasChar c p = false) ->
  Js.split c (Js.join (String c "") parts) = parts.
Proof.
  induction parts as [|x rest IH]; [congruence|]. intros _ Hall.
  destruct rest as [|y rest].
  - simpl. apply split_without_separator. apply Hall. now left.
  - change (Js.join (String c "") (x :: y :: rest))
      with (x ++ String c (Js.join (String c "") (y :: rest))).
    rewrite split_at_separator by (apply Hall; now left).
    rewrite IH; [reflexivity | discriminate |].
    intros p Hp. apply Hall. now right.
Qed.

Lemma split_length (s : string) :
  length (Js.split c s) = S (countChar c s).
Proof.
  induction s as [|a s IH]; [reflexivity|]. simpl.
  destruct (Ascii.eqb a c); simpl; [now rewrite IH|].
  destruct (Js.split c s); simpl in *; congruence.
Qed.

End QueueUrl.

(** X1. For an event source ARN made of pieces joined by ':', none of
    them containing ':', the queue URL is built from the message's own
    [awsRegion] and the fifth and sixth pieces of the ARN (account and
    queue name); the region inside the ARN is not used. *)
Theorem queueUrl_of_wellformed_arn
    (message : SQS.Message) (parts : list string) (accountId queueName : string) :
  SQS.eventSourceARN message = Js.join ":" parts ->
  (forall p, In p parts -> hasChar ":" p = false) ->
  nth_error parts 4 = Some accountId ->
  nth_error parts 5 = Some queueName ->
  queueUrlOf message =
    "https://sqs." ++ SQS.awsRegion message ++ ".amazonaws.com/" ++
    accountId ++ "/" ++ queueName.
Proof.
  intros Harn Hfree H4 H5. unfold queueUrlOf. rewrite Harn.
  rewrite split_join; trivial.
  - unfold elemToString. now rewrite H4, H5.
  - intros ->. discriminate H4.
Qed.

Lemma queueUrl_of_wellformed_arn_witness :
  queueUrlOf Scenario.messageP1 =
    "https://sqs." ++ SQS.awsRegion Scenario.messageP1 ++ ".amazonaws.com/" ++
    "123456789012" ++ "/" ++ "detect-image-attributes".
Proof.
  apply (@queueUrl_of_wellformed_arn Scenario.messageP1
           ["arn"; "aws"; "sqs"; "us-east-1"; "123456789012";
            "detect-image-attributes"]).
  - reflexivity.
  - intros p Hp. simpl in Hp.
    repeat (destruct Hp as [<- | Hp]; [reflexivity|]). destruct Hp.
  - reflexivity.
  - reflexivity.
Defined.

(** X2. An event source ARN with fewer than five ':' has no sixth piece:
    the queue name in the URL is the text "undefined"; with fewer than
    four the account is "undefined" as well. The handler does not check
    the ARN. *)
Theorem queueUrl_of_short_arn (message : SQS.Message) :
  (countChar ":" (SQS.eventSourceARN message) < 5)%nat ->
  queueUrlOf message =
    "https://sqs." ++ SQS.awsRegion message ++ ".amazonaws.com/" ++
    elemToString (Js.split ":" (SQS.eventSourceARN message)) 4 ++ "/undefined" /\
  ((countChar ":" (SQS.eventSourceARN message) < 4)%nat ->
   queueUrlOf message =
     "https://sqs." ++ SQS.awsRegion message ++ ".amazonaws.com/undefined/undefined").
Proof.
  intros Hlt. unfold queueUrlOf.
  pose proof (split_length ":" (SQS.eventSourceARN message)) as Hlen.
  assert (H5 : nth_error (Js.split ":" (SQS.eventSourceARN message)) 5 = None)
    by (apply nth_error_None; lia).
  unfold elemToString at 2. rewrite H5. split; [reflexivity|].
  intros Hlt4.
  assert (H4 : nth_error (Js.split ":" (SQS.eventSourceARN message)) 4 = None)
    by (apply nth_error_None; lia).
  unfold elemToString. now rewrite H4, H5.
Qed.

Lemma queueUrl_of_short_arn_witness :
  queueUrlOf {| SQS.body := "{}"; SQS.eventSourceARN := "arn:aws:sqs";
                SQS.awsRegion := "us-east-1"; SQS.receiptHandle := "r" |} =
    "https://sqs." ++ "us-east-1" ++ ".amazonaws.com/" ++
    elemToString (Js.split ":" "arn:aws:sqs") 4 ++ "/undefined" /\
  ((countChar ":" "arn:aws:sqs" < 4)%nat ->
   queueUrlOf {| SQS.body := "{}"; SQS.eventSourceARN := "arn:aws:sqs";
                 SQS.awsRegion := "us-east-1"; SQS.receiptHandle := "r" |} =
     "https://sqs." ++ "us-east-1" ++ ".amazonaws.com/undefined/undefined").
Proof.
  apply (@queueUrl_of_short_arn
           {| SQS.body := "{}"; SQS.eventSourceARN := "arn:aws:sqs";
              SQS.awsRegion := "us-east-1"; SQS.receiptHandle := "r" |}).
  simpl. lia.
Defined.

(* ------------------------------------------------------------------ *)
(** ** Further properties of the runs *)

Ltac split_membership :=
  cbn [In] in *;
  repeat match goal with
         | H : _ \/ _ |- _ => destruct H as [H | H]
         | H : False |- _ => destruct H
         end.

(** X3. Every error thrown while a message is processed is logged once,
    as the last effect of the run, by the line 'Error processing image:',
    and thrown on; a run that returns normally never logs that line. Only
    an event without records fails unlogged, before the [try]. *)
Theorem errors_are_logged_last (R : Runtime) (message : SQS.Message) :
  (forall e,
      result (handler R (eventOf message)) = inl e ->
      exists t, trace (handler R (eventOf message)) = (t ++ [errorLine])%list /\
                ~ In errorLine t) /\
  (forall r,
      result (handler R (eventOf message)) = inr r ->
      ~ In errorLine (trace (handler R (eventOf message)))) /\
  handler R {| SQS.Records := [] |} = ([], inl TypeError).
Proof.
  split; [|split; [|reflexivity]].
  - run_inversion R message; run_observe; intros e0 He; try discriminate.
    all: match goal with
         | |- exists t, ?l = _ /\ _ => exists (removelast l)
         end.
    all: split; [reflexivity|].
    all: cbn [removelast]; intros Hin; split_membership; discriminate.
  - run_inversion R message; run_observe; intros r Hr; try discriminate.
    all: intros Hin; split_membership; discriminate.
Qed.

(** X4. A normal return is either the skip response or the completed
    response; the run is acknowledged exactly when it returns the
    completed response, and then the detector was invoked and the item
    written. *)
Theorem normal_return_is_skip_or_completed (R : Runtime) (message : SQS.Message) :
  (forall r,
      result (handler R (eventOf message)) = inr r ->
      r = skippedResponse \/ exists rr, r = completedResponse rr) /\
  (acknowledged (handler R (eventOf message)) = true <->
   exists rr, result (handler R (eventOf message)) = inr (completedResponse rr)) /\
  (acknowledged (handler R (eventOf message)) = true ->
   detectorInvoked (handler R (eventOf message)) = true /\
   storeWritten (handler R (eventOf message)) = true).
Proof.
  split; [|split].
  - run_inversion R message; run_observe; intros r Hr; try discriminate.
    all: injection Hr as <-; eauto.
  - run_inversion R message; run_observe; split; try discriminate.
    all: try (intros [rr Hrr]; discriminate Hrr).
    all: eauto.
  - run_inversion R message; run_observe; try discriminate.
    all: intros _; split; reflexivity.
Qed.

Section OneObject.

Variable R : Runtime.
Variable message : SQS.Message.

(** X5. Every command of a run concerns the object named in the message
    body: the fetch, the detection and the tag write carry its bucket and
    key, the item carries its identity, and the delete is the delete of
    the message itself. *)
Theorem commands_target_the_message_object (bucket key : JsValue) :
  Identified R message bucket key ->
  forall c,
    In c (commands (trace (handler R (eventOf message)))) ->
    targets message bucket key c.
Proof.
  intros Hi. run_stages.
  run_inversion R message; run_observe; same_answers; try congruence.
  all: intros c Hin; split_membership; subst; cbn [targets]; auto.
Qed.

(** A tag set is written only in a run that has stored the item. *)
Lemma written_tags_stored (tags : list Tag) :
  In tags (writtenTagSets (commands (trace (handler R (eventOf message))))) ->
  exists bucket key existingTags rr dets,
    Stored R message bucket key existingTags rr dets.
Proof.
  pose proof (handler_run R message) as Hrun.
  remember (handler R (eventOf message)) as run.
  destruct Hrun;
    repeat match goal with
           | H : MarkerRun _ _ _ _ (_, _) |- _ => inversion H; subst; clear H
           end;
    run_observe; intros Hin; split_membership; eauto 10.
Qed.

End OneObject.

Lemma commands_target_the_message_object_witness :
  targets Scenario.messageP1 (JString "b") (JString "posters/p1.jpg")
    (PutObjectTaggingCommand (JString "b") (JString "posters/p1.jpg")
       [Scenario.tag "project" "posters"; markerTag "true";
        Scenario.tag "owner" "media"]).
Proof.
  apply (@commands_target_the_message_object
           (Scenario.runtime Scenario.tagsWithFalse Scenario.detectionsP1)
           Scenario.messageP1).
  - exists Scenario.objectP1. split; reflexivity.
  - do 3 right. left. reflexivity.
Defined.

(** X6. A tag set is written only after the table accepted the item of
    the same run: no object is marked as processed without its item. *)
Theorem marker_written_only_after_item_stored
    (R : Runtime) (message : SQS.Message) (tags : list Tag) :
  In tags (writtenTagSets (commands (trace (handler R (eventOf message))))) ->
  storeWritten (handler R (eventOf message)) = true /\
  exists bucket key existingTags rr dets o,
    Detected R message bucket key existingTags rr dets /\
    send R (putItemOf R bucket key dets) = inr o /\
    storedItems (commands (trace (handler R (eventOf message))))
      = [itemOf R bucket key dets].
Proof.
  intros Hin.
  destruct (written_tags_stored R message tags Hin)
    as (b & k & l & rr & dets & Hs).
  pose proof Hs as [Hd [o Ho]].
  assert (Hitems : storedItems (commands (trace (handler R (eventOf message))))
                   = [itemOf R b k dets]).
  { clear Hin. pose proof (handler_run R message) as Hrun.
    remember (handler R (eventOf message)) as run.
    destruct Hrun;
      repeat match goal with
             | H : Stored _ _ _ _ _ _ _ |- _ => destruct H as [H ?]
             end;
      try match goal with
          | H : Detected _ _ _ _ _ _ _ |- _ =>
              destruct (Detected_fun Hd H) as (<- & <- & <- & <- & <-)
          end;
      repeat match goal with
             | H : MarkerRun _ _ _ _ (_, _) |- _ => inversion H; subst; clear H
             end;
      try reflexivity; try congruence;
      destruct Hd as (Hf' & Hno & Hrr & Hdets); run_stages;
      unfold ret, throw, putItemOf in *; same_answers; congruence. }
  split.
  - unfold storeWritten.
    assert (Hex : forall cs, storedItems cs <> [] -> existsb is_PutItem cs = true).
    { induction cs as [|c cs IH]; [simpl; congruence|]. destruct c; simpl; auto. }
    apply Hex. rewrite Hitems. discriminate.
  - exists b, k, l, rr, dets, o. auto.
Qed.

Lemma marker_written_only_after_item_stored_witness :
  storeWritten (handler (Scenario.runtime Scenario.tagsWithFalse Scenario.detectionsP1)
                  (eventOf Scenario.messageP1)) = true /\
  exists bucket key existingTags rr dets o,
    Detected (Scenario.runtime Scenario.tagsWithFalse Scenario.detectionsP1)
      Scenario.messageP1 bucket key existingTags rr dets /\
    send (Scenario.runtime Scenario.tagsWithFalse Scenario.detectionsP1)
      (putItemOf (Scenario.runtime Scenario.tagsWithFalse Scenario.detectionsP1)
         bucket key dets) = inr o /\
    storedItems (commands (trace (handler
        (Scenario.runtime Scenario.tagsWithFalse Scenario.detectionsP1)
        (eventOf Scenario.messageP1))))
      = [itemOf (Scenario.runtime Scenario.tagsWithFalse Scenario.detectionsP1)
           bucket key dets].
Proof.
  apply (@marker_written_only_after_item_stored
           (Scenario.runtime Scenario.tagsWithFalse Scenario.detectionsP1)
           Scenario.messageP1
           [Scenario.tag "project" "posters"; markerTag "true";
            Scenario.tag "owner" "media"]).
  left. reflexivity.
Defined.

(** X7. Every tag set the handler writes holds the entry
    (rekognition_text_detection, "true"): a later run that fetches the
    written tags, on whatever runtime and message, short-circuits without
    invoking the detector. *)
Theorem written_tags_make_next_run_skip
    (R : Runtime) (message : SQS.Message) (tags : list Tag) :
  In tags (writtenTagSets (commands (trace (handler R (eventOf message))))) ->
  In (markerTag "true") tags /\
  forall R' message' bucket' key',
    Fetched R' message' bucket' key' tags ->
    shortCircuits (handler R' (eventOf message')) /\
    detectorInvoked (handler R' (eventOf message')) = false /\
    markerWritten (handler R' (eventOf message')) = false.
Proof.
  intros Hin.
  destruct (written_tags_inv R message tags Hin)
    as (b & k & l & Hf & _ & _ & Hcase).
  assert (Htrue : In (markerTag "true") tags).
  { destruct Hcase as [[Hfalse ->] | (_ & _ & ->)].
    - apply hasFalseTag_In in Hfalse. unfold updatedTagSet.
      apply in_map_iff. exists (markerTag "false"). split; [reflexivity | trivial].
    - unfold extendedTagSet. apply in_or_app. right. now left. }
  split; [exact Htrue|].
  intros R' message' bucket' key' Hf'.
  unfold shortCircuits. rewrite (skipped_run Hf' Htrue). repeat split.
Qed.

Lemma written_tags_make_next_run_skip_witness :
  In (markerTag "true")
     [Scenario.tag "project" "posters"; markerTag "true";
      Scenario.tag "owner" "media"] /\
  forall R' message' bucket' key',
    Fetched R' message' bucket' key'
      [Scenario.tag "project" "posters"; markerTag "true";
       Scenario.tag "owner" "media"] ->
    shortCircuits (handler R' (eventOf message')) /\
    detectorInvoked (handler R' (eventOf message')) = false /\
    markerWritten (handler R' (eventOf message')) = false.
Proof.
  apply (@written_tags_make_next_run_skip
           (Scenario.runtime Scenario.tagsWithFalse Scenario.detectionsP1)
           Scenario.messageP1).
  left. reflexivity.
Defined.

(** X8. The handler never writes more than ten tags to an object that
    has at most ten: the rewrite keeps the number of tags and the addition
    is made only below ten. *)
Theorem written_tags_respect_the_cap
    (R : Runtime) (message : SQS.Message) (bucket key : JsValue)
    (existingTags tags : list Tag) :
  Fetched R message bucket key existingTags ->
  (length existingTags <= 10)%nat ->
  In tags (writtenTagSets (commands (trace (handler R (eventOf message))))) ->
  (length tags <= 10)%nat /\
  (length existingTags <= length tags <= S (length existingTags))%nat.
Proof.
  intros Hf Hlen Hin.
  destruct (written_tags_inv R message tags Hin)
    as (b & k & l & Hf' & _ & _ & Hcase).
  destruct (Fetched_fun Hf Hf') as (<- & <- & <-).
  destruct Hcase as [[_ ->] | (_ & Hlt & ->)].
  - rewrite updatedTagSet_length. lia.
  - unfold extendedTagSet. rewrite length_app. simpl. lia.
Qed.

Lemma written_tags_respect_the_cap_witness :
  (length [Scenario.tag "project" "posters"; markerTag "true";
           Scenario.tag "owner" "media"] <= 10)%nat /\
  (length Scenario.tagsWithFalse
   <= length [Scenario.tag "project" "posters"; markerTag "true";
              Scenario.tag "owner" "media"]
   <= S (length Scenario.tagsWithFalse))%nat.
Proof.
  apply (@written_tags_respect_the_cap
           (Scenario.runtime Scenario.tagsWithFalse Scenario.detectionsP1)
           Scenario.messageP1 (JString "b") (JString "posters/p1.jpg")).
  - split; [exists Scenario.objectP1; split; reflexivity|].
    eexists; split; reflexivity.
  - simpl. lia.
  - left. reflexivity.
Defined.

(** X9. A detector response without [TextDetections] makes the handler
    throw a TypeError right after logging the response: no item and no tag
    is written and the message is not deleted. *)
Theorem response_without_detections_throws
    (R : Runtime) (message : SQS.Message) (bucket key : JsValue)
    (existingTags : list Tag) (rr : Output) :
  Fetched R message bucket key existingTags ->
  ~ In (markerTag "true") existingTags ->
  send R (DetectTextCommand bucket key MinConfidence) = inr rr ->
  TextDetections rr = None ->
  result (handler R (eventOf message)) = inl TypeError /\
  commands (trace (handler R (eventOf message))) =
    [GetObjectTaggingCommand bucket key;
     DetectTextCommand bucket key MinConfidence] /\
  storeWritten (handler R (eventOf message)) = false /\
  markerWritten (handler R (eventOf message)) = false /\
  deleteIssued (handler R (eventOf message)) = false.
Proof.
  intros Hf Hno Hrr Hnone.
  assert (Hrun : handler R (eventOf message) =
                 ([processingLine bucket key;
                   Send (GetObjectTaggingCommand bucket key);
                   Send (DetectTextCommand bucket key MinConfidence);
                   ConsoleLogJson "Rekognition response:" rr; errorLine],
                  inl TypeError)).
  { apply Run_fun. apply RunNoDetections with existingTags; trivial.
    destruct (hasRekognitionTextDetectionTag existingTags) eqn:E; trivial.
    now apply hasRekognitionTextDetectionTag_In in E. }
  rewrite Hrun. repeat split.
Qed.

Lemma response_without_detections_throws_witness :
  result (handler Cases.runtimeNoDetections (eventOf Scenario.messageP1))
    = inl TypeError /\
  commands (trace (handler Cases.runtimeNoDetections (eventOf Scenario.messageP1))) =
    [GetObjectTaggingCommand (JString "b") (JString "posters/p1.jpg");
     DetectTextCommand (JString "b") (JString "posters/p1.jpg") MinConfidence] /\
  storeWritten (handler Cases.runtimeNoDetections (eventOf Scenario.messageP1)) = false /\
  markerWritten (handler Cases.runtimeNoDetections (eventOf Scenario.messageP1)) = false /\
  deleteIssued (handler Cases.runtimeNoDetections (eventOf Scenario.messageP1)) = false.
Proof.
  apply (@response_without_detections_throws
           Cases.runtimeNoDetections Scenario.messageP1
           (JString "b") (JString "posters/p1.jpg") [] Scenario.noOutput).
  - split; [exists Scenario.objectP1; split; reflexivity|].
    eexists; split; reflexivity.
  - intros [].
  - reflexivity.
  - reflexivity.
Defined.

(* ------------------------------------------------------------------ *)
(** ** Further properties of the identity and of the aggregation *)

Lemma append_slash_inj (b b' k k' : string) :
  hasChar "/" b = false -> hasChar "/" b' = false ->
  b ++ "/" ++ k = b' ++ "/" ++ k' -> b = b' /\ k = k'.
Proof.
  revert b'. induction b as [|a b IH]; intros [|a' b'] Hb Hb' H; simpl in *.
  - injection H as ->. auto.
  - injection H as <- _. discriminate Hb'.
  - injection H as -> _. discriminate Hb.
  - injection H as <- H.
    apply orb_false_iff in Hb as [_ Hb]. apply orb_false_iff in Hb' as [_ Hb'].
    destruct (IH b' Hb Hb' H) as [-> ->]. auto.
Qed.

(** X10. Two objects with string bucket names that contain no '/', which
    bucket names never do, get the same identity only if they have the
    same bucket and the same key: distinct objects never share an item of
    the table. *)
Theorem identity_determines_bucket_and_key (bucket bucket' key key' : string) :
  hasChar "/" bucket = false ->
  hasChar "/" bucket' = false ->
  s3UriOf (JString bucket) (JString key) = s3UriOf (JString bucket') (JString key') ->
  bucket = bucket' /\ key = key'.
Proof.
  intros Hb Hb' H. unfold s3UriOf in H. cbn [ToString] in H.
  apply append_slash_inj; trivial.
  simpl in H. now injection H.
Qed.

Lemma identity_determines_bucket_and_key_witness :
  "b" = "b" /\ "posters/p1.jpg" = "posters/p1.jpg".
Proof.
  apply (@identity_determines_bucket_and_key "b" "b" "posters/p1.jpg" "posters/p1.jpg");
    reflexivity.
Defined.

(** Without that restriction, and for values that are not strings,
    identities collide. *)
Example identities_collide :
  s3UriOf (JString "a/b") (JString "c") = s3UriOf (JString "a") (JString "b/c") /\
  s3UriOf JUndefined (JString "k") = s3UriOf (JString "undefined") (JString "k").
Proof. split; reflexivity. Qed.

(** X11. The flag ignores case on both sides, whatever function
    lower-cases, and so for the built-in [toLowerCase]: a word and
    fragments that lower-case to the same as another word and other
    fragments, type by type and in the same order, give the same flag. *)
Theorem word_flag_ignores_case
    (lower : string -> string) (word word' : string)
    (detections detections' : list TextDetection) :
  lower word = lower word' ->
  Forall2 (sameUpToCaseWith lower) detections detections' ->
  wordDetectedWith lower word detections = wordDetectedWith lower word' detections'.
Proof.
  intros Hw Hall. unfold wordDetectedWith. rewrite Hw.
  induction Hall as [|d d' l l' [Hty Htext] _ IH]; [reflexivity|].
  simpl. rewrite Hty. destruct (Type_ d' =? "WORD"); [|exact IH].
  simpl. now rewrite Htext, IH.
Qed.

Lemma word_flag_ignores_case_witness :
  wordDetectedWith Js.toLowerCase "FindMe"
    [{| Type_ := "WORD"; DetectedText := "Please FINDME Here"; Confidence := 99 |}]
  = wordDetectedWith Js.toLowerCase "findme"
    [{| Type_ := "WORD"; DetectedText := "please findme here"; Confidence := 91 |}].
Proof.
  apply word_flag_ignores_case.
  - reflexivity.
  - constructor; [split; reflexivity | constructor].
Defined.

Lemma includes_empty (s : string) : Js.includes s "" = true.
Proof. destruct s; reflexivity. Qed.

(** X12. With the empty word to detect the flag is true as soon as there
    is one fragment of type WORD, whatever its text. *)
Theorem empty_word_flags_any_word_fragment (detections : list TextDetection) :
  wordDetected "" detections = existsb isWord detections.
Proof.
  unfold wordDetected. fold isWord.
  induction detections as [|d l IH]; [reflexivity|]. simpl.
  destruct (isWord d); simpl; [|exact IH].
  now rewrite includes_empty.
Qed.

Lemma string_app_assoc (s t u : string) : (s ++ t) ++ u = s ++ t ++ u.
Proof. induction s as [|a s IH]; [reflexivity|]. simpl. now rewrite IH. Qed.

Lemma string_app_nil_r (s : string) : s ++ "" = s.
Proof. induction s as [|a s IH]; [reflexivity|]. simpl. now rewrite IH. Qed.

Lemma join_app (sep : string) (l1 l2 : list string) :
  l1 <> [] -> l2 <> [] ->
  Js.join sep (l1 ++ l2) = Js.join sep l1 ++ sep ++ Js.join sep l2.
Proof.
  intros H1 H2. induction l1 as [|x l1 IH]; [congruence|].
  destruct l1 as [|y l1].
  - simpl. destruct l2; [congruence | reflexivity].
  - change ((x :: y :: l1) ++ l2)%list with (x :: (y :: l1) ++ l2)%list.
    rewrite join_cons by discriminate.
    rewrite IH by discriminate.
    rewrite (@join_cons sep x (y :: l1)) by discriminate.
    now rewrite !string_app_assoc.
Qed.

(** X13. Both results compose over the concatenation of two detection
    results: the flag is the disjunction of the two flags; the text is the
    two texts joined by " | " when both lists hold a LINE fragment, and
    the text of the one that does otherwise. *)
Theorem aggregation_of_concatenated_detections
    (word : string) (l1 l2 : list TextDetection) :
  wordDetected word (l1 ++ l2) = wordDetected word l1 || wordDetected word l2 /\
  detectedText (l1 ++ l2) =
    (if existsb isLine l1
     then if existsb isLine l2
          then detectedText l1 ++ " | " ++ detectedText l2
          else detectedText l1
     else detectedText l2).
Proof.
  split.
  - unfold wordDetected. now rewrite filter_app, existsb_app.
  - assert (Hnone : forall l, existsb isLine l = false -> filter isLine l = []).
    { induction l as [|d l IH]; [reflexivity|]. simpl.
      intros H. apply orb_false_iff in H as [-> Hl]. auto. }
    unfold detectedText. fold isLine. rewrite filter_app, map_app.
    destruct (existsb isLine l1) eqn:E1; destruct (existsb isLine l2) eqn:E2.
    + apply join_app.
      * intros E. apply map_eq_nil in E. now apply (filter_isLine_some l1 E1).
      * intros E. apply map_eq_nil in E. now apply (filter_isLine_some l2 E2).
    + rewrite (Hnone l2 E2). simpl. now rewrite app_nil_r.
    + now rewrite (Hnone l1 E1).
    + now rewrite (Hnone l1 E1).
Qed.

(* ------------------------------------------------------------------ *)
(** ** The fan-out handler: file extensions *)

Section Extensions.

Lemma lower_ascii_is_dot (a : ascii) :
  Ascii.eqb (Js.lower_ascii a) "." = Ascii.eqb a ".".
Proof.
  destruct a as [[] [] [] [] [] [] [] []]; reflexivity.
Qed.

Lemma lastIndexOf_toLowerCase (s : string) :
  Batch.lastIndexOf "." (Js.toLowerCase s) = Batch.lastIndexOf "." s.
Proof.
  induction s as [|a s IH]; [reflexivity|]. simpl.
  now rewrite IH, lower_ascii_is_dot.
Qed.

Lemma hasChar_toLowerCase (s : string) :
  hasChar "." (Js.toLowerCase s) = hasChar "." s.
Proof.
  induction s as [|a s IH]; [reflexivity|]. simpl.
  now rewrite IH, lower_ascii_is_dot.
Qed.

Lemma lastIndexOf_lower_bound (c : ascii) (s : string) :
  (-1 <= Batch.lastIndexOf c s)%Z.
Proof.
  induction s as [|a s IH]; simpl; [lia|].
  destruct (0 <=? Batch.lastIndexOf c s)%Z eqn:E.
  - apply Z.leb_le in E. lia.
  - destruct (Ascii.eqb a c); lia.
Qed.

Lemma lastIndexOf_absent (c : ascii) (s : string) :
  hasChar c s = false -> Batch.lastIndexOf c s = (-1)%Z.
Proof.
  induction s as [|a s IH]; [reflexivity|]. simpl.
  intros H. apply orb_false_iff in H as [Ha Hs].
  rewrite (IH Hs), Ha. reflexivity.
Qed.

Lemma lastIndexOf_app (c : ascii) (s t : string) :
  (0 <= Batch.lastIndexOf c t)%Z ->
  Batch.lastIndexOf c (s ++ t)
    = (Z.of_nat (String.length s) + Batch.lastIndexOf c t)%Z.
Proof.
  intros Ht. induction s as [|a s IH]; [simpl; lia|].
  simpl String.append. cbn [Batch.lastIndexOf]. rewrite IH.
  assert (E : (0 <=? Z.of_nat (String.length s) + Batch.lastIndexOf c t)%Z = true)
    by (apply Z.leb_le; lia).
  rewrite E. simpl String.length. lia.
Qed.

Lemma dropChars_app (s t : string) :
  Batch.dropChars (String.length s) (s ++ t) = t.
Proof. induction s as [|a s IH]; [now destruct t | exact IH]. Qed.

Lemma dropChars_suffix (n : nat) (s : string) :
  exists stem, s = stem ++ Batch.dropChars n s.
Proof.
  revert s. induction n as [|n IH]; intros s.
  - exists "". reflexivity.
  - destruct s as [|a s]; [exists ""; reflexivity|].
    destruct (IH s) as [stem Hs]. exists (String a stem).
    simpl. now rewrite <- Hs.
Qed.

End Extensions.

Lemma supported_model (s3Key : string) :
  Batch.supported (Batch.fileExtensionOf s3Key) = true <->
  exists stem ext,
    In ext Batch.SUPPORTED_EXTENSIONS /\ Js.toLowerCase s3Key = stem ++ ext.
Proof.
  unfold Batch.supported, Batch.fileExtensionOf, Batch.substring. split.
  - intros H. apply existsb_exists in H as (ext & Hin & Heq).
    apply String.eqb_eq in Heq.
    destruct (dropChars_suffix (Z.to_nat (Batch.lastIndexOf "." s3Key))
                (Js.toLowerCase s3Key)) as [stem Hstem].
    exists stem, ext. split; [exact Hin|]. now rewrite Heq.
  - intros (stem & ext & Hin & Hlow).
    rewrite <- lastIndexOf_toLowerCase, Hlow.
    assert (Hext : Batch.lastIndexOf "." ext = 0%Z /\
                   existsb (fun e => e =? ext) Batch.SUPPORTED_EXTENSIONS = true).
    { simpl in Hin. destruct Hin as [<- | [<- | [<- | []]]]; split; reflexivity. }
    destruct Hext as [Hdot Hsup].
    rewrite lastIndexOf_app by (rewrite Hdot; lia).
    rewrite Hdot, Z.add_0_r, Nat2Z.id, dropChars_app. exact Hsup.
Qed.

(** X14. For a key of ASCII characters, and a lower-casing that maps A-Z
    to a-z on such strings as the built-in does: the object is accepted
    exactly when its key, in lower case, ends with ".jpg", ".jpeg" or
    ".png". The extension compared is the lower-cased key from the index
    of the last '.' of the key itself on; nothing is stated for a key with
    other characters, whose lower-casing can differ in length. *)
Theorem supported_iff_key_ends_with_extension
    (lower : string -> string) (s3Key : string) :
  agreesOnAscii lower ->
  isAscii s3Key = true ->
  (Batch.supported (fileExtensionOfWith lower s3Key) = true <->
   exists stem ext,
     In ext Batch.SUPPORTED_EXTENSIONS /\ lower s3Key = stem ++ ext).
Proof.
  intros Hlow Hkey. unfold fileExtensionOfWith. rewrite (Hlow s3Key Hkey).
  apply supported_model.
Qed.

Lemma supported_iff_key_ends_with_extension_witness :
  Batch.supported (fileExtensionOfWith Js.toLowerCase "posters/P1.JPG") = true <->
  exists stem ext,
    In ext Batch.SUPPORTED_EXTENSIONS /\
    Js.toLowerCase "posters/P1.JPG" = stem ++ ext.
Proof.
  apply (@supported_iff_key_ends_with_extension Js.toLowerCase "posters/P1.JPG").
  - intros s _. reflexivity.
  - reflexivity.
Defined.

(** X15. A key without any '.' is reported whole, in lower case, as its
    file type, because [lastIndexOf] answers -1 and [substring] starts at
    0; the object is skipped with 'Succeeded' and nothing is sent. *)
Theorem key_without_dot_is_skipped (R : Batch.Runtime) (task : Batch.Task) :
  hasChar "." (Batch.s3Key task) = false ->
  Batch.fileExtensionOf (Batch.s3Key task) = Js.toLowerCase (Batch.s3Key task) /\
  Batch.processTask R task =
    ([], {| Batch.resultTaskId := Batch.taskId task;
            Batch.resultCode := "Succeeded";
            Batch.resultString :=
              "Skipped - Unsupported file type: " ++
              Js.toLowerCase (Batch.s3Key task) |}).
Proof.
  intros Hdot.
  assert (Hext : Batch.fileExtensionOf (Batch.s3Key task)
                 = Js.toLowerCase (Batch.s3Key task)).
  { unfold Batch.fileExtensionOf, Batch.substring.
    now rewrite (lastIndexOf_absent "." _ Hdot). }
  split; [exact Hext|].
  unfold Batch.processTask. rewrite Hext.
  assert (Hno : Batch.supported (Js.toLowerCase (Batch.s3Key task)) = false).
  { destruct (Batch.supported (Js.toLowerCase (Batch.s3Key task))) eqn:E; trivial.
    unfold Batch.supported in E. apply existsb_exists in E as (ext & Hin & Heq).
    apply String.eqb_eq in Heq.
    rewrite <- hasChar_toLowerCase, <- Heq in Hdot.
    simpl in Hin. destruct Hin as [<- | [<- | [<- | []]]]; discriminate Hdot. }
  now rewrite Hno.
Qed.

Lemma key_without_dot_is_skipped_witness :
  Batch.fileExtensionOf "posters/README" = Js.toLowerCase "posters/README" /\
  Batch.processTask Cases.batchRuntime
    {| Batch.taskId := "task-2"; Batch.s3Key := "posters/README";
       Batch.s3VersionId := JNull; Batch.s3BucketArn := "arn:aws:s3:::b" |} =
    ([], {| Batch.resultTaskId := "task-2";
            Batch.resultCode := "Succeeded";
            Batch.resultString :=
              "Skipped - Unsupported file type: " ++
              Js.toLowerCase "posters/README" |}).
Proof.
  apply (@key_without_dot_is_skipped Cases.batchRuntime
           {| Batch.taskId := "task-2"; Batch.s3Key := "posters/README";
              Batch.s3VersionId := JNull; Batch.s3BucketArn := "arn:aws:s3:::b" |}).
  reflexivity.
Defined.

(* ------------------------------------------------------------------ *)
(** ** The fan-out handler: outcomes *)

(** X16. With a task, the fan-out handler never throws: it returns one
    result, for the first task and with its id, and logs it last. The
    result is 'TemporaryFailure', carrying the error's message, exactly
    when the extension is supported and the send to the queue threw;
    otherwise it is 'Succeeded'. An object with an unsupported extension
    is never sent; one with a supported extension is sent once, to the
    queue of SQS_QUEUE_URL, with the rendering of {bucket, key,
    versionId} as body. *)
Theorem fanout_reports_one_result
    (R : Batch.Runtime) (event : Batch.Event)
    (task : Batch.Task) (rest : list Batch.Task) :
  Batch.tasks event = task :: rest ->
  exists entry,
    Batch.handler R event =
      ((map Batch.Send (Batch.sent (fst (Batch.handler R event)))
        ++ [Batch.ConsoleLog [entry]])%list,
       inr {| Batch.responseSchemaVersion := Batch.invocationSchemaVersion event;
              Batch.treatMissingKeysAs := "TemporaryFailure";
              Batch.responseInvocationId := Batch.invocationId event;
              Batch.results := [entry] |}) /\
    Batch.resultTaskId entry = Batch.taskId task /\
    Batch.sent (fst (Batch.handler R event)) =
      (if Batch.supported (Batch.fileExtensionOf (Batch.s3Key task))
       then [ {| Batch.QueueUrl := Batch.SQS_QUEUE_URL R;
                 Batch.MessageBody :=
                   Batch.JSON_stringify R (Batch.messageObject task) |} ]
       else []) /\
    (Batch.resultCode entry = "Succeeded" \/
     Batch.resultCode entry = "TemporaryFailure") /\
    (Batch.resultCode entry = "TemporaryFailure" <->
     Batch.supported (Batch.fileExtensionOf (Batch.s3Key task)) = true /\
     exists error,
       Batch.send R (Batch.commandOf R task) = inl error /\
       Batch.resultString entry = "Error processing task: " ++ Batch.message error).
Proof.
  intros Htasks. unfold Batch.handler. rewrite Htasks.
  unfold Batch.processTask.
  destruct (Batch.supported (Batch.fileExtensionOf (Batch.s3Key task))) eqn:Esup;
    cbn [negb].
  - destruct (Batch.send R (Batch.commandOf R task)) as [error | []] eqn:Esend.
    + eexists. split; [reflexivity|]. cbn.
      repeat split; auto. exists error. auto.
    + eexists. split; [reflexivity|]. cbn.
      repeat split; auto; try discriminate.
      intros [_ [error [Herr _]]]. discriminate Herr.
  - eexists. split; [reflexivity|]. cbn.
    repeat split; auto; try discriminate.
    intros [H _]. discriminate H.
Qed.

Lemma fanout_reports_one_result_witness :
  exists entry,
    Batch.handler Cases.batchRuntimeDown (Cases.batchEvent Cases.taskP1) =
      ((map Batch.Send
          (Batch.sent (fst (Batch.handler Cases.batchRuntimeDown
                              (Cases.batchEvent Cases.taskP1))))
        ++ [Batch.ConsoleLog [entry]])%list,
       inr {| Batch.responseSchemaVersion :=
                Batch.invocationSchemaVersion (Cases.batchEvent Cases.taskP1);
              Batch.treatMissingKeysAs := "TemporaryFailure";
              Batch.responseInvocationId :=
                Batch.invocationId (Cases.batchEvent Cases.taskP1);
              Batch.results := [entry] |}) /\
    Batch.resultTaskId entry = Batch.taskId Cases.taskP1 /\
    Batch.sent (fst (Batch.handler Cases.batchRuntimeDown
                       (Cases.batchEvent Cases.taskP1))) =
      (if Batch.supported (Batch.fileExtensionOf (Batch.s3Key Cases.taskP1))
       then [ {| Batch.QueueUrl := Batch.SQS_QUEUE_URL Cases.batchRuntimeDown;
                 Batch.MessageBody :=
                   Batch.JSON_stringify Cases.batchRuntimeDown
                     (Batch.messageObject Cases.taskP1) |} ]
       else []) /\
    (Batch.resultCode entry = "Succeeded" \/
     Batch.resultCode entry = "TemporaryFailure") /\
    (Batch.resultCode entry = "TemporaryFailure" <->
     Batch.supported (Batch.fileExtensionOf (Batch.s3Key Cases.taskP1)) = true /\
     exists error,
       Batch.send Cases.batchRuntimeDown
         (Batch.commandOf Cases.batchRuntimeDown Cases.taskP1) = inl error /\
       Batch.resultString entry = "Error processing task: " ++ Batch.message error).
Proof.
  apply (@fanout_reports_one_result Cases.batchRuntimeDown
           (Cases.batchEvent Cases.taskP1) Cases.taskP1 []).
  reflexivity.
Defined.

(** X17. The fan-out handler throws exactly when the event has no task,
    and then without any effect: the TypeError of [task.s3Key] is caught
    and [task.taskId] throws again inside the [catch]. *)
Theorem fanout_throws_iff_no_task (R : Batch.Runtime) (event : Batch.Event) :
  ((exists e, snd (Batch.handler R event) = inl e) <-> Batch.tasks event = []) /\
  (Batch.tasks event = [] -> Batch.handler R event = ([], inl TypeError)).
Proof.
  unfold Batch.handler. destruct (Batch.tasks event) as [|task rest].
  - split; [split; [reflexivity | intros _; now exists TypeError] | reflexivity].
  - destruct (Batch.processTask R task) as [effects entry]. cbn [snd].
    split; [split; [intros [e He]; discriminate He | discriminate] | discriminate].
Qed.

(* ------------------------------------------------------------------ *)
(** ** The fan-out handler: the bucket of the ARN *)

Section BucketArn.

(** Without an occurrence of the separator the string is the one piece. *)
Lemma split_without_triple_colon (s : string) :
  Js.includes s ":::" = false -> Batch.split ":::" s = [s].
Proof.
  unfold Batch.split. induction s as [|a s IH]; [reflexivity|].
  intros H. cbn [Js.includes] in H. apply orb_false_iff in H as [Hstart Hrest].
  cbn [Batch.splitFrom]. rewrite Hstart, (IH Hrest). reflexivity.
Qed.

Lemma includes_without_colon (s : string) :
  hasChar ":" s = false -> Js.includes s ":::" = false.
Proof.
  induction s as [|a s IH]; [reflexivity|]. simpl.
  intros H. apply orb_false_iff in H as [Ha Hs].
  rewrite Ha, (IH Hs). reflexivity.
Qed.

(** The first occurrence of the separator ends the first piece. *)
Lemma split_at_triple_colon (pre rest : string) :
  Js.includes (pre ++ "::") ":::" = false ->
  Batch.split ":::" (pre ++ ":::" ++ rest) = pre :: Batch.split ":::" rest.
Proof.
  unfold Batch.split. induction pre as [|a pre IH]; intros H.
  - reflexivity.
  - simpl String.append in *. cbn [Js.includes] in H.
    apply orb_false_iff in H as [Hstart Hrest].
    cbn [Batch.splitFrom].
    assert (Hs : Js.startsWith (String a (pre ++ ":::" ++ rest)) ":::" = false).
    { destruct pre as [|b [|b' pre]]; simpl in *;
        destruct (Ascii.eqb a ":"); simpl in *; trivial;
        try discriminate Hstart;
        destruct (Ascii.eqb b ":"); simpl in *; trivial;
        try discriminate Hstart. }
    change (":::" ++ rest) with (String ":" (String ":" (String ":" rest))) in Hs.
    rewrite Hs, (IH Hrest). reflexivity.
Qed.

Lemma s3_arn_prefix (partition : string) :
  hasChar ":" partition = false ->
  Js.includes (("arn:" ++ partition ++ ":s3") ++ "::") ":::" = false.
Proof.
  intros H.
  assert (Hp : forall p, hasChar ":" p = false ->
                         Js.includes (p ++ ":s3::") ":::" = false).
  { induction p as [|a p IH]; [intros _; reflexivity|]. simpl.
    intros Hap. apply orb_false_iff in Hap as [Ha Hpp].
    rewrite Ha, (IH Hpp). reflexivity. }
  rewrite !string_app_assoc. simpl.
  change (":s3" ++ "::") with ":s3::". rewrite (Hp partition H).
  destruct partition as [|a p]; [reflexivity|].
  simpl in *. apply orb_false_iff in H as [-> _]. reflexivity.
Qed.

Lemma s3BucketOf_s3_arn (partition name : string) :
  hasChar ":" partition = false ->
  hasChar ":" name = false ->
  Batch.s3BucketOf ("arn:" ++ partition ++ ":s3:::" ++ name) = JString name.
Proof.
  intros Hp Hn. unfold Batch.s3BucketOf.
  replace ("arn:" ++ partition ++ ":s3:::" ++ name)
    with (("arn:" ++ partition ++ ":s3") ++ ":::" ++ name)
    by (rewrite !string_app_assoc; reflexivity).
  rewrite split_at_triple_colon by (now apply s3_arn_prefix).
  rewrite split_without_triple_colon by (now apply includes_without_colon).
  reflexivity.
Qed.

End BucketArn.

(** X18. For a bucket ARN of the form arn:<partition>:s3:::<name>, with
    no ':' in the partition and in the name, the bucket put into the
    message is <name>. For an ARN without ':::' there is no second piece:
    the bucket is undefined, and the handler sends the message all the
    same when the extension is supported. *)
Theorem bucket_of_arn (R : Batch.Runtime) (task : Batch.Task) :
  (forall partition name,
      Batch.s3BucketArn task = "arn:" ++ partition ++ ":s3:::" ++ name ->
      hasChar ":" partition = false ->
      hasChar ":" name = false ->
      Batch.s3BucketOf (Batch.s3BucketArn task) = JString name) /\
  (Js.includes (Batch.s3BucketArn task) ":::" = false ->
   Batch.s3BucketOf (Batch.s3BucketArn task) = JUndefined /\
   Batch.messageObject task =
     JObject [("bucket", JUndefined); ("key", JString (Batch.s3Key task));
              ("versionId", Batch.s3VersionId task)] /\
   (Batch.supported (Batch.fileExtensionOf (Batch.s3Key task)) = true ->
    fst (Batch.processTask R task) = [Batch.Send (Batch.commandOf R task)])).
Proof.
  split.
  - intros partition name Harn Hp Hn. rewrite Harn.
    now apply s3BucketOf_s3_arn.
  - intros Hno.
    assert (Hb : Batch.s3BucketOf (Batch.s3BucketArn task) = JUndefined).
    { unfold Batch.s3BucketOf. now rewrite split_without_triple_colon. }
    split; [exact Hb|]. split.
    + unfold Batch.messageObject. now rewrite Hb.
    + intros Hsup. unfold Batch.processTask. rewrite Hsup. cbn [negb].
      now destruct (Batch.send R (Batch.commandOf R task)).
Qed.

(* ------------------------------------------------------------------ *)
(** ** From the fan-out to the extractor *)

(** X19. The two handlers compose. For a task with a bucket ARN
    arn:<partition>:s3:::<name>, and a [JSON.parse] on the extractor's
    side that gives back the object the fan-out rendered, the extractor
    that receives the message body sent by the fan-out works on that
    bucket and key: its first command is the fetch of the tags of
    <name>/<key>, and every item it writes has the identity
    s3://<name>/<key>. *)
Theorem fanout_message_names_the_object
    (RB : Batch.Runtime) (R : Runtime) (task : Batch.Task)
    (message : SQS.Message) (partition name : string) :
  Batch.s3BucketArn task = "arn:" ++ partition ++ ":s3:::" ++ name ->
  hasChar ":" partition = false ->
  hasChar ":" name = false ->
  SQS.body message = Batch.MessageBody (Batch.commandOf RB task) ->
  JSON_parse R (Batch.JSON_stringify RB (Batch.messageObject task))
    = Some (Batch.messageObject task) ->
  Identified R message (JString name) (JString (Batch.s3Key task)) /\
  (exists t,
      trace (handler R (eventOf message)) =
        processingLine (JString name) (JString (Batch.s3Key task))
          :: Send (GetObjectTaggingCommand (JString name)
                     (JString (Batch.s3Key task))) :: t) /\
  (forall item,
      In item (storedItems (commands (trace (handler R (eventOf message))))) ->
      s3Uri item = "s3://" ++ name ++ "/" ++ Batch.s3Key task).
Proof.
  intros Harn Hp Hn Hbody Hround.
  assert (Hbucket : Batch.s3BucketOf (Batch.s3BucketArn task) = JString name)
    by (rewrite Harn; now apply s3BucketOf_s3_arn).
  assert (Hi : Identified R message (JString name) (JString (Batch.s3Key task))).
  { exists (Batch.messageObject task). split.
    - rewrite Hbody. exact Hround.
    - unfold Batch.messageObject. rewrite Hbucket. reflexivity. }
  split; [exact Hi|]. exact (identified_run Hi).
Qed.

Lemma fanout_message_names_the_object_witness :
  Identified Cases.extractorRuntime Cases.messageFromBatch
    (JString "b") (JString (Batch.s3Key Cases.taskP1)) /\
  (exists t,
      trace (handler Cases.extractorRuntime (eventOf Cases.messageFromBatch)) =
        processingLine (JString "b") (JString (Batch.s3Key Cases.taskP1))
          :: Send (GetObjectTaggingCommand (JString "b")
                     (JString (Batch.s3Key Cases.taskP1))) :: t) /\
  (forall item,
      In item (storedItems (commands (trace
        (handler Cases.extractorRuntime (eventOf Cases.messageFromBatch))))) ->
      s3Uri item = "s3://" ++ "b" ++ "/" ++ Batch.s3Key Cases.taskP1).
Proof.
  apply (@fanout_message_names_the_object
           Cases.batchRuntime Cases.extractorRuntime Cases.taskP1
           Cases.messageFromBatch "aws" "b"); reflexivity.
Defined.

(* ------------------------------------------------------------------ *)
(** ** Further edge cases of the extractor *)

(** X20. The rewrite of the tags is idempotent: after it every entry
    named 'rekognition_text_detection' has the value "true", none has
    "false", and rewriting again changes nothing. *)
Theorem marker_rewrite_is_idempotent (tags : list Tag) :
  updatedTagSet (updatedTagSet tags) = updatedTagSet tags /\
  hasFalseTag (updatedTagSet tags) = false /\
  (forall tag,
      In tag (updatedTagSet tags) ->
      Key tag = processedByRekognitionTextDetectionTag -> Value tag = "true") /\
  ((1 <= markerEntries tags)%nat ->
   hasRekognitionTextDetectionTag (updatedTagSet tags) = true).
Proof.
  unfold updatedTagSet, hasFalseTag, hasRekognitionTextDetectionTag, markerEntries.
  induction tags as [|tag tags (IH1 & IH2 & IH3 & IH4)].
  - repeat split; try reflexivity; [intros tag [] | simpl; lia].
  - simpl. destruct (Key tag =? processedByRekognitionTextDetectionTag) eqn:E;
      simpl; rewrite E; simpl.
    + rewrite IH1, IH2. repeat split; trivial.
      intros t [<- | Hin] Hk; [reflexivity | now apply IH3].
    + rewrite IH1, IH2. repeat split; trivial.
      intros t [<- | Hin] Hk; [|now apply IH3].
      apply String.eqb_neq in E. now elim E.
Qed.

(** X21. A body that is JSON but neither an object nor null (a number, a
    string, an array, a boolean) is not rejected: bucket and key are both
    undefined and the run starts by fetching the tags of that object, with
    the identity "s3://undefined/undefined". *)
Theorem scalar_body_is_processed_as_undefined
    (R : Runtime) (message : SQS.Message) (v : JsValue) :
  JSON_parse R (SQS.body message) = Some v ->
  v <> JNull -> v <> JUndefined -> (forall fields, v <> JObject fields) ->
  Identified R message JUndefined JUndefined /\
  (exists t,
      trace (handler R (eventOf message)) =
        ConsoleLog "Processing S3 Object s3://undefined/undefined"
          :: Send (GetObjectTaggingCommand JUndefined JUndefined) :: t) /\
  (forall item,
      In item (storedItems (commands (trace (handler R (eventOf message))))) ->
      s3Uri item = "s3://undefined/undefined").
Proof.
  intros Hp Hnull Hundef Hobj.
  assert (Hi : Identified R message JUndefined JUndefined).
  { exists v. split; [exact Hp|].
    destruct v; try reflexivity; try congruence. }
  split; [exact Hi|]. exact (identified_run Hi).
Qed.

Lemma scalar_body_is_processed_as_undefined_witness :
  Identified Cases.runtimeScalar (Scenario.messageWith "5") JUndefined JUndefined /\
  (exists t,
      trace (handler Cases.runtimeScalar (eventOf (Scenario.messageWith "5"))) =
        ConsoleLog "Processing S3 Object s3://undefined/undefined"
          :: Send (GetObjectTaggingCommand JUndefined JUndefined) :: t) /\
  (forall item,
      In item (storedItems (commands (trace
        (handler Cases.runtimeScalar (eventOf (Scenario.messageWith "5")))))) ->
      s3Uri item = "s3://undefined/undefined").
Proof.
  apply (@scalar_body_is_processed_as_undefined
           Cases.runtimeScalar (Scenario.messageWith "5") (JNumber "5")).
  - reflexivity.
  - discriminate.
  - discriminate.
  - discriminate.
Defined.
